(** * PROSTHEMIND+ : the sensing / grip / pain pipeline of [touch_to_sense.py]

    A shallow embedding of the decision logic of
    [src/final/touch_to_sense.py]: the reference tables, the material
    classifier, the pain model ([PainFeedbackSystem]), the pain alert of the
    haptic simulator and the detection cycle and reset of
    [IntegratedProstheMind.run].

    Python [float]s are IEEE binary64 numbers; they are embedded as Rocq's
    primitive floats, whose operations are the same binary64 operations, so
    that every rounding of the program is the rounding of the model.  Python
    [int]s are embedded as [Z], strings as [string], dictionaries as [gmap],
    [deque(maxlen=n)] as a list whose oldest element is first.  A Python
    exception ([KeyError], [ValueError] of [int(nan)], ...) ends the run: the
    functions that can raise return [option]. *)

From Stdlib Require Import ZArith List Lia.
From Stdlib Require Import Numbers.Cyclic.Int63.Uint63.
From Stdlib Require Import Floats.PrimFloat Floats.SpecFloat Floats.FloatOps.
From Stdlib Require Import Floats.FloatAxioms.
From stdpp Require Import base option list list_numbers strings gmap.

#[local] Set Warnings "-inexact-float".
#[local] Open Scope Z_scope.

(** ** Python primitives *)

Module Py.

(** [float(n)] for a Python int.  Exact for [|n| < 2^53]; every integer the
    program converts is a grip, a pain sample, a length or a sum of at most
    twenty samples, far below that. *)
Definition float_of_int (n : Z) : float :=
  if 0 <=? n then of_uint63 (Uint63.of_Z n)
  else (- of_uint63 (Uint63.of_Z (- n)))%float.

(** [int(x)] for a float: truncation toward zero; [int(nan)] and
    [int(inf)] raise. *)
Definition int_of_float (x : float) : option Z :=
  match Prim2SF x with
  | S754_zero _ => Some 0
  | S754_finite sign m e =>
      let magnitude :=
        if 0 <=? e then Z.pos m * 2 ^ e else Z.pos m / 2 ^ (- e) in
      Some (if sign then - magnitude else magnitude)
  | S754_infinity _ | S754_nan => None
  end.

(** [max(0, x)] with [x] a float: [max] keeps its first argument unless a
    later one is strictly greater, so a NaN or a negative [x] gives [0]. *)
Definition max0 (x : float) : float :=
  if (0 <? x)%float then x else 0%float.

(** [min(x, bound)]: [min] keeps its first argument unless a later one is
    strictly smaller. *)
Definition min_with (x bound : float) : float :=
  if (bound <? x)%float then bound else x.

(** [max(iterable, key=key)]: the first element whose key is not exceeded
    by a later one; [ValueError] on an empty iterable.  [gt a b] is the
    comparison [a > b] of the keys. *)
Definition max_by {A K : Type} (gt : K -> K -> bool) (key : A -> K)
    (l : list A) : option A :=
  match l with
  | [] => None
  | x :: rest =>
      Some (fold_left (fun best y => if gt (key y) (key best) then y else best)
                      rest x)
  end.

(** A dictionary display [{k1: v1, k2: v2, ...}]: the items are inserted
    from left to right, a repeated key keeps the last value. *)
Definition dict_display {V : Type} (items : list (string * V))
    : gmap string V :=
  fold_left (fun d kv => <[fst kv := snd kv]> d) items ∅.

(** [d.append(x)] on a [deque(maxlen=n)]: when the deque is full its
    oldest (leftmost) element is discarded first. *)
Definition deque_append {A : Type} (maxlen : nat) (x : A) (d : list A)
    : list A :=
  if (maxlen <=? length d)%nat then tail d ++ [x] else d ++ [x].

(** [d.count(x)] on a deque of strings. *)
Definition count (d : list string) (x : string) : Z :=
  Z.of_nat (length (filter (fun y => y = x) d)).

Definition sum_int (l : list Z) : Z := fold_right Z.add 0 l.

(** [np.mean(d)] on a non-empty deque of ints: the float64 sum of the
    entries divided by their number. *)
Definition np_mean (d : list Z) : float :=
  (float_of_int (sum_int d) / float_of_int (Z.of_nat (length d)))%float.

(** Truthiness of a string or [None]: [None] and the empty string are
    false. *)
Definition truthy (s : option string) : bool :=
  match s with
  | Some s => negb (bool_decide (s = ""%string))
  | None => false
  end.

End Py.

(** ** Reference tables *)

Record MaterialInfo := {
  grip_strength : Z;
  description : string;
  haptic_intensity : string;
  sound_freq : Z;
  pain_factor : float
}.

(** The items of the [MATERIAL_DATABASE] display, in source order (the
    [color] entry, used by the overlay only, is left out). *)
Definition MATERIAL_DATABASE_items : list (string * MaterialInfo) :=
  [ ("fabric"%string,
      {| grip_strength := 30; description := "Soft, flexible material";
         haptic_intensity := "LOW"; sound_freq := 300;
         pain_factor := 0.2%float |});
    ("metal"%string,
      {| grip_strength := 70; description := "Hard, smooth, conductive";
         haptic_intensity := "HIGH"; sound_freq := 600;
         pain_factor := 0.7%float |});
    ("glass"%string,
      {| grip_strength := 85; description := "Fragile, transparent, slippery";
         haptic_intensity := "VERY HIGH"; sound_freq := 800;
         pain_factor := 0.9%float |});
    ("wood"%string,
      {| grip_strength := 50; description := "Natural, textured, firm";
         haptic_intensity := "MEDIUM"; sound_freq := 400;
         pain_factor := 0.4%float |});
    ("plastic"%string,
      {| grip_strength := 60; description := "Synthetic, lightweight, varied";
         haptic_intensity := "MEDIUM"; sound_freq := 450;
         pain_factor := 0.5%float |});
    ("paper"%string,
      {| grip_strength := 25; description := "Thin, delicate, crushable";
         haptic_intensity := "VERY LOW"; sound_freq := 250;
         pain_factor := 0.1%float |});
    ("ceramic"%string,
      {| grip_strength := 75; description := "Hard, breakable, smooth";
         haptic_intensity := "HIGH"; sound_freq := 700;
         pain_factor := 0.8%float |});
    ("stone"%string,
      {| grip_strength := 80;
         description := "Very hard, heavy, durable (granite, marble)";
         haptic_intensity := "VERY HIGH"; sound_freq := 750;
         pain_factor := 0.85%float |}) ].

Definition MATERIAL_DATABASE : gmap string MaterialInfo :=
  Py.dict_display MATERIAL_DATABASE_items.

(** The items of the [OBJECT_MATERIAL_MAP] display, in source order; the key
    ["vase"] is written twice. *)
Definition OBJECT_MATERIAL_MAP_items : list (string * string) :=
  [ ("backpack", "fabric"); ("handbag", "fabric"); ("tie", "fabric");
    ("umbrella", "fabric"); ("suitcase", "fabric"); ("teddy bear", "fabric");
    ("knife", "metal"); ("fork", "metal"); ("spoon", "metal");
    ("scissors", "metal"); ("refrigerator", "metal"); ("oven", "metal");
    ("sink", "metal"); ("toaster", "metal");
    ("wine glass", "glass"); ("cup", "glass"); ("bottle", "glass");
    ("vase", "glass"); ("mirror", "glass");
    ("chair", "wood"); ("dining table", "wood"); ("bench", "wood");
    ("cell phone", "plastic"); ("remote", "plastic"); ("keyboard", "plastic");
    ("mouse", "plastic"); ("laptop", "plastic"); ("toothbrush", "plastic");
    ("bowl", "plastic");
    ("book", "paper"); ("newspaper", "paper");
    ("potted plant", "ceramic"); ("vase", "ceramic") ]%string.

Definition OBJECT_MATERIAL_MAP : gmap string string :=
  Py.dict_display OBJECT_MATERIAL_MAP_items.

(** ** Material classifier *)

(** The dictionary returned by [analyze_texture]. *)
Record Features := {
  edge_density : float;
  texture_energy : float;
  brightness_std : float;
  saturation_mean : float;
  highlight_ratio : float
}.

(** The [scores] display of [classify_material], in insertion order. *)
Definition scores (f : Features) : list (string * float) :=
  [ ("fabric"%string,
      edge_density f * 3.0 + (1.0 - highlight_ratio f) * 2.0);
    ("metal"%string,
      highlight_ratio f * 5.0 + (1.0 - edge_density f) * 2.0);
    ("glass"%string,
      highlight_ratio f * 6.0 + (1.0 - edge_density f) * 3.0);
    ("wood"%string,
      texture_energy f / 300.0 + edge_density f * 2.0);
    ("plastic"%string,
      saturation_mean f / 150.0 + (1.0 - texture_energy f / 300.0) * 1.5);
    ("paper"%string,
      edge_density f * 4.0 + (1.0 - highlight_ratio f) * 2.0);
    ("ceramic"%string,
      (1.0 - edge_density f) * 2.0 + highlight_ratio f * 2.0);
    ("stone"%string,
      texture_energy f / 250.0 + highlight_ratio f * 3.0
      + (1.0 - edge_density f) * 2.5) ]%float.

(** The feature-scoring fallback: arg-max over [scores] in insertion order,
    confidence the winning share of the total, at most 1. *)
Definition classify_by_scores (f : Features) : option string * float :=
  match Py.max_by (fun a b => (b <? a)%float) snd (scores f) with
  | None => (None, 0%float)
  | Some (best_material, best_score) =>
      let total_score :=
        fold_left (fun acc kv => (acc + snd kv)%float) (scores f) 0%float in
      let confidence :=
        if (0 <? total_score)%float then (best_score / total_score)%float
        else 0.0%float in
      (Some best_material, Py.min_with confidence 1.0%float)
  end.

(** [IntegratedProstheMind.classify_material]. *)
Definition classify_material (features : option Features)
    (detected_object : option string) : option string * float :=
  match features with
  | None => (None, 0.0%float)
  | Some f =>
      match detected_object with
      | Some obj =>
          if Py.truthy (Some obj) then
            match OBJECT_MATERIAL_MAP !! obj with
            | Some material => (Some material, 0.85%float)
            | None => classify_by_scores f
            end
          else classify_by_scores f
      | None => classify_by_scores f
      end
  end.

(** ** Pain model *)

(** The fields of [PainFeedbackSystem] that the program reads
    ([last_alert_time] and [alert_cooldown] are never read).
    [pain_history] is a [deque(maxlen=20)]; [strain_accumulation] starts as
    the int [0] and is a float from the first update on, the int values [0]
    and [50] that [max] and [min] can store being the floats [0.0] and
    [50.0] in every later operation. *)
Record PainFeedbackSystem := {
  pain_level : Z;
  pain_history : list Z;
  strain_accumulation : float;
  relief_mode : bool
}.

(** [PainFeedbackSystem.__init__]. *)
Definition PainFeedbackSystem_init : PainFeedbackSystem :=
  {| pain_level := 0; pain_history := []; strain_accumulation := 0%float;
     relief_mode := false |}.

Definition pain_history_maxlen : nat := 20.

(** The pain factor looked up by [calculate_pain_from_grip]. *)
Definition pain_factor_of (material : option string) : float :=
  match material with
  | Some m =>
      if Py.truthy material then
        match MATERIAL_DATABASE !! m with
        | Some info => pain_factor info
        | None => 0.5%float
        end
      else 0.5%float
  | None => 0.5%float
  end.

(** The value of [total_pain] and of the updated strain in
    [calculate_pain_from_grip]. *)
Definition strain_after_grip (p : PainFeedbackSystem) (grip : Z) : float :=
  Py.min_with
    (strain_accumulation p + Py.float_of_int grip / 100 * 0.5)%float
    50%float.

Definition total_pain (p : PainFeedbackSystem) (grip : Z)
    (material : option string) : float :=
  let base_pain := Py.max0 (Py.float_of_int (grip - 40) * 1.5)%float in
  let material_pain := (base_pain * pain_factor_of material)%float in
  let total := (material_pain + strain_after_grip p grip)%float in
  if relief_mode p then (total * 0.6)%float else total.

(** [PainFeedbackSystem.calculate_pain_from_grip]: the system with its strain
    updated, and the returned pain sample. *)
Definition calculate_pain_from_grip (p : PainFeedbackSystem) (grip : Z)
    (material : option string) : option (PainFeedbackSystem * Z) :=
  n ← Py.int_of_float (total_pain p grip material);
  Some ({| pain_level := pain_level p; pain_history := pain_history p;
           strain_accumulation := strain_after_grip p grip;
           relief_mode := relief_mode p |},
        Z.min 100 (Z.max 0 n)).

(** The relief-mode test at the end of [update_pain_level]. *)
Definition relief_after (level : Z) (relief : bool) : bool :=
  if 75 <? level then true else if level <? 40 then false else relief.

(** [PainFeedbackSystem.update_pain_level]. *)
Definition update_pain_level (p : PainFeedbackSystem) (grip : Z)
    (material : option string) (is_gripping : bool)
    : option PainFeedbackSystem :=
  '(p1, new_pain) ←
    (if is_gripping then calculate_pain_from_grip p grip material
     else Some ({| pain_level := pain_level p;
                   pain_history := pain_history p;
                   strain_accumulation :=
                     Py.max0 (strain_accumulation p - 0.5)%float;
                   relief_mode := relief_mode p |},
                Z.max 0 (pain_level p - 2)));
  let history := Py.deque_append pain_history_maxlen new_pain (pain_history p1) in
  level ← match history with
          | [] => Some 0
          | _ :: _ => Py.int_of_float (Py.np_mean history)
          end;
  Some {| pain_level := level; pain_history := history;
          strain_accumulation := strain_accumulation p1;
          relief_mode := relief_after level (relief_mode p1) |}.

(** ** Haptic requests *)

(** A call of [generate_beep], immediate or through [threading.Timer]. *)
Inductive HapticRequest :=
  | Beep (frequency : Z) (duration volume : float)
  | DelayedBeep (delay : float) (frequency : Z) (duration volume : float).

(** [HapticFeedbackSimulator.pain_alert]: the beeps it requests. *)
Definition pain_alert (level : Z) : list HapticRequest :=
  if 70 <? level then
    [Beep 800 0.2 0.7; DelayedBeep 0.12 900 0.15 0.6]
  else if 50 <? level then [Beep 600 0.15 0.5]
  else [].

(** ** Session state and the detection cycle *)

(** The attributes of [IntegratedProstheMind] that the cycle's decisions
    read or write (the camera, the detector, the insight texts and the
    overlay fields are left out). *)
Record ProstheMind := {
  pain_system : PainFeedbackSystem;
  current_material : option string;
  current_object : option string;
  current_grip : Z;
  target_grip : Z;
  confidence : float;
  grip_history : list Z;
  material_history : list string;
  was_in_contact : bool;
  contact_frame_count : Z;
  last_pain_alert : float
}.

(** [IntegratedProstheMind.__init__]. *)
Definition ProstheMind_init : ProstheMind :=
  {| pain_system := PainFeedbackSystem_init;
     current_material := None; current_object := None;
     current_grip := 0; target_grip := 0; confidence := 0.0%float;
     grip_history := []; material_history := [];
     was_in_contact := false; contact_frame_count := 0;
     last_pain_alert := 0%float |}.

Definition grip_history_maxlen : nat := 15.
Definition material_history_maxlen : nat := 10.

(** What the detector and the texture analysis give in a detection cycle
    (every third frame): no box, or a box with its class name and the
    features of its region ([None] for a region under 20x20). *)
Inductive Observation :=
  | NoDetection
  | Detected (detected_object : string) (features : option Features).

(** The calls a cycle makes on the pain model and the haptic simulator. *)
Inductive Event :=
  | ContactFeedback (material : string) (grip : Z)
  | PainUpdate (grip : Z) (material : option string) (is_gripping : bool)
  | PainAlert (level : Z) (requests : list HapticRequest).

(** The calls of [haptic.pain_alert] among the events of a cycle, and the
    calls of [pain_system.update_pain_level]. *)
Definition is_pain_alert (e : Event) : bool :=
  match e with PainAlert _ _ => true | _ => false end.

Definition is_pain_update (e : Event) : bool :=
  match e with PainUpdate _ _ _ => true | _ => false end.

Definition pain_alerts (evs : list Event) : list Event :=
  List.filter is_pain_alert evs.

Definition pain_updates (evs : list Event) : list Event :=
  List.filter is_pain_update evs.

(** The test [material and confidence > 0.4] of the cycle. *)
Definition accepted (c : option string * float) : option (string * float) :=
  match c with
  | (Some material, conf) =>
      if Py.truthy (Some material) && (0.4 <? conf)%float
      then Some (material, conf) else None
  | (None, _) => None
  end.

Section Cycle.

(** The order in which Python iterates over [set(d)] for a deque [d] of
    strings.  It depends on the string hashes of the process, so it is a
    parameter; [set_order_ok] says what every such order satisfies. *)
Variable set_order : list string -> list string.

Definition set_order_ok : Prop :=
  forall d : list string,
    NoDup (set_order d) /\ forall x, x ∈ set_order d <-> x ∈ d.

(** The material smoothing of the cycle: the new history and the material
    the cycle goes on with,
    [max(set(self.material_history), key=self.material_history.count)]
    from five entries on. *)
Definition smooth_material (history : list string) (material : string)
    : option (list string * string) :=
  let history' := Py.deque_append material_history_maxlen material history in
  if (5 <=? length history')%nat then
    m ← Py.max_by Z.gtb (Py.count history') (set_order history');
    Some (history', m)
  else Some (history', material).

(** The branch of an accepted classification (source lines 1344-1401). *)
Definition accepted_grip (s : ProstheMind) (now : float)
    (detected_object raw_material : string) (conf : float)
    : option (ProstheMind * list Event) :=
  '(material_history', material) ←
    smooth_material (material_history s) raw_material;
  let is_new_contact := negb (was_in_contact s) in
  info ← MATERIAL_DATABASE !! material;
  let target := grip_strength info in
  let grip_history' :=
    Py.deque_append grip_history_maxlen target (grip_history s) in
  grip ← Py.int_of_float (Py.np_mean grip_history');
  let feedback := is_new_contact || (contact_frame_count s =? 0) in
  let count1 := if feedback then 30 else contact_frame_count s in
  let count2 := if 0 <? count1 then count1 - 1 else count1 in
  pain ← update_pain_level (pain_system s) grip (Some material) true;
  let alert :=
    (60 <? pain_level pain) && (3.0 <? now - last_pain_alert s)%float in
  Some ({| pain_system := pain;
           current_material := Some material;
           current_object := Some detected_object;
           current_grip := grip; target_grip := target;
           confidence := conf;
           grip_history := grip_history';
           material_history := material_history';
           was_in_contact := true;
           contact_frame_count := count2;
           last_pain_alert := if alert then now else last_pain_alert s |},
        (if feedback then [ContactFeedback material grip] else [])
        ++ [PainUpdate grip (Some material) true]
        ++ (if alert
            then [PainAlert (pain_level pain) (pain_alert (pain_level pain))]
            else [])).

(** The branch of a box whose classification is not accepted (source lines
    1402-1408). *)
Definition weak_detection (s : ProstheMind) (detected_object : string)
    : option (ProstheMind * list Event) :=
  let conf := Py.max0 (confidence s - 0.03)%float in
  if (conf <? 0.2)%float then
    pain ← update_pain_level (pain_system s) 0 None false;
    Some ({| pain_system := pain;
             current_material := None;
             current_object := Some detected_object;
             current_grip := current_grip s; target_grip := target_grip s;
             confidence := conf;
             grip_history := grip_history s;
             material_history := material_history s;
             was_in_contact := false;
             contact_frame_count := contact_frame_count s;
             last_pain_alert := last_pain_alert s |},
          [PainUpdate 0 None false])
  else
    Some ({| pain_system := pain_system s;
             current_material := current_material s;
             current_object := Some detected_object;
             current_grip := current_grip s; target_grip := target_grip s;
             confidence := conf;
             grip_history := grip_history s;
             material_history := material_history s;
             was_in_contact := was_in_contact s;
             contact_frame_count := contact_frame_count s;
             last_pain_alert := last_pain_alert s |},
          []).

(** The branch of a cycle without a box (source lines 1409-1425). *)
Definition no_detection (s : ProstheMind)
    : option (ProstheMind * list Event) :=
  let conf := Py.max0 (confidence s - 0.05)%float in
  if (conf <? 0.1)%float then
    let grip_history' :=
      Py.deque_append grip_history_maxlen 0 (grip_history s) in
    grip ← Py.int_of_float (Py.np_mean grip_history');
    pain ← update_pain_level (pain_system s) 0 None false;
    Some ({| pain_system := pain;
             current_material := None;
             current_object := None;
             current_grip := grip; target_grip := target_grip s;
             confidence := conf;
             grip_history := grip_history';
             material_history := material_history s;
             was_in_contact := false;
             contact_frame_count := contact_frame_count s;
             last_pain_alert := last_pain_alert s |},
          [PainUpdate 0 None false])
  else
    Some ({| pain_system := pain_system s;
             current_material := current_material s;
             current_object := current_object s;
             current_grip := current_grip s; target_grip := target_grip s;
             confidence := conf;
             grip_history := grip_history s;
             material_history := material_history s;
             was_in_contact := was_in_contact s;
             contact_frame_count := contact_frame_count s;
             last_pain_alert := last_pain_alert s |},
          []).

(** One detection cycle of [IntegratedProstheMind.run] (the body of
    [if frame_count % 3 == 0]), [now] being the value of [time.time()] at
    the pain-alert test. *)
Definition detection_cycle (s : ProstheMind) (now : float)
    (obs : Observation) : option (ProstheMind * list Event) :=
  match obs with
  | Detected detected_object features =>
      match accepted (classify_material features (Some detected_object)) with
      | Some (material, conf) =>
          accepted_grip s now detected_object material conf
      | None => weak_detection s detected_object
      end
  | NoDetection => no_detection s
  end.

(** The reset key (source lines 1441-1452). *)
Definition reset (s : ProstheMind) : ProstheMind :=
  {| pain_system :=
       {| pain_level := 0;
          pain_history := pain_history (pain_system s);
          strain_accumulation := 0%float;
          relief_mode := relief_mode (pain_system s) |};
     current_material := None;
     current_object := None;
     current_grip := 0; target_grip := target_grip s;
     confidence := 0.0%float;
     grip_history := [];
     material_history := [];
     was_in_contact := was_in_contact s;
     contact_frame_count := contact_frame_count s;
     last_pain_alert := last_pain_alert s |}.

(** What happens between two frames that matters to the state: a detection
    cycle, or the reset key. *)
Inductive Command :=
  | Cycle (now : float) (obs : Observation)
  | Reset.

Definition exec (s : ProstheMind) (c : Command)
    : option (ProstheMind * list Event) :=
  match c with
  | Cycle now obs => detection_cycle s now obs
  | Reset => Some (reset s, [])
  end.

(** A run: the final state and the events of each command, in order. *)
Fixpoint run (s : ProstheMind) (cs : list Command)
    : option (ProstheMind * list (list Event)) :=
  match cs with
  | [] => Some (s, [])
  | c :: cs' =>
      '(s1, evs) ← exec s c;
      '(s2, rest) ← run s1 cs';
      Some (s2, evs :: rest)
  end.

(** The states the program can be in between two frames. *)
Inductive reachable : ProstheMind -> Prop :=
  | reachable_init : reachable ProstheMind_init
  | reachable_exec s c s1 evs :
      reachable s -> exec s c = Some (s1, evs) -> reachable s1.

End Cycle.

(** A pain model fed directly: the systems after each call of
    [update_pain_level], in order. *)
Fixpoint feed_pain (p : PainFeedbackSystem)
    (calls : list (Z * option string * bool)) : option (list PainFeedbackSystem) :=
  match calls with
  | [] => Some []
  | (grip, material, is_gripping) :: rest =>
      p1 ← update_pain_level p grip material is_gripping;
      trace ← feed_pain p1 rest;
      Some (p1 :: trace)
  end.

(** The pain model after [cycles] gripping updates with the same grip and
    material, from start-up. *)
Fixpoint held (grip : Z) (material : option string) (cycles : nat)
    : option PainFeedbackSystem :=
  match cycles with
  | O => Some PainFeedbackSystem_init
  | S k => p ← held grip material k; update_pain_level p grip material true
  end.

(** ** Pain status, distance estimate and the other haptic calls *)

(** [PainFeedbackSystem.get_pain_status]: the message and its colour. *)
Definition get_pain_status (p : PainFeedbackSystem) : string * (Z * Z * Z) :=
  if 80 <? pain_level p then ("🔥 CRITICAL"%string, (0, 0, 255))
  else if 60 <? pain_level p then ("⚠️ HIGH"%string, (0, 100, 255))
  else if 40 <? pain_level p then ("⚡ MODERATE"%string, (0, 200, 255))
  else if 20 <? pain_level p then ("○ MILD"%string, (100, 255, 200))
  else ("✓ NORMAL"%string, (0, 255, 0)).

(** The ints that convert to a float without rounding: below [2^53] in
    absolute value.  On two of them [a / b] is the float quotient of the two
    conversions, and [Py.float_of_int] is Python's conversion; pixel areas
    are of this kind. *)
Definition exact_as_float (n : Z) : Prop := Z.abs n < 2 ^ 53.

(** The chain of tests of [estimate_distance] on the size ratio. *)
Definition distance_band (size_ratio : float) : Z :=
  if (0.3 <? size_ratio)%float then 5
  else if (0.2 <? size_ratio)%float then 8
  else if (0.15 <? size_ratio)%float then 12
  else if (0.1 <? size_ratio)%float then 20
  else if (0.05 <? size_ratio)%float then 35
  else 50.

(** [IntegratedProstheMind.estimate_distance] on two ints that are
    [exact_as_float] (beyond them Python's [int / int] rounds the exact
    quotient or raises [OverflowError], which this quotient of conversions
    does not follow); a zero [frame_area] raises [ZeroDivisionError]. *)
Definition estimate_distance (box_area frame_area : Z) : option Z :=
  if frame_area =? 0 then None
  else Some (distance_band
               (Py.float_of_int box_area / Py.float_of_int frame_area)%float).

(** The frequency argument of [generate_beep]: an int or a float. *)
Inductive Frequency :=
  | Hz (n : Z)
  | HzFloat (x : float).

(** A call of [generate_beep], immediate or after the delay of a
    [threading.Timer]. *)
Record Sound := {
  sound_delay : option float;
  sound_frequency : Frequency;
  sound_duration : float;
  sound_volume : float
}.

(** The attributes of [HapticFeedbackSimulator] written by the proximity
    alert and the contact feedback ([audio_enabled] only decides whether
    [generate_beep] plays). *)
Record HapticFeedbackSimulator := {
  last_beep_time : float;
  proximity_alert_active : bool;
  contact_feedback_active : bool;
  feedback_animation : Z
}.

(** [HapticFeedbackSimulator.__init__]. *)
Definition HapticFeedbackSimulator_init : HapticFeedbackSimulator :=
  {| last_beep_time := 0%float; proximity_alert_active := false;
     contact_feedback_active := false; feedback_animation := 0 |}.

Definition beep_cooldown : float := 0.2%float.

(** [HapticFeedbackSimulator.proximity_alert], on the int distance that the
    cycle passes: the simulator, the returned flag and the beep. *)
Definition proximity_alert (h : HapticFeedbackSimulator) (current_time : float)
    (distance_cm : Z) : HapticFeedbackSimulator * bool * list Sound :=
  if (distance_cm <=? 10)
     && (beep_cooldown <? current_time - last_beep_time h)%float
  then
    let freq := 400 + (10 - distance_cm) * 60 in
    let duration := 0.12%float in
    let volume :=
      Py.min_with (0.4 + Py.float_of_int (10 - distance_cm) * 0.04)%float
                  0.8%float in
    ({| last_beep_time := current_time;
        proximity_alert_active := true;
        contact_feedback_active := contact_feedback_active h;
        feedback_animation := 25 |},
     true,
     [{| sound_delay := None; sound_frequency := Hz freq;
         sound_duration := duration; sound_volume := volume |}])
  else (h, false, []).

(** The materials that get the second pulse of [contact_feedback]. *)
Definition fragile_materials : list string :=
  ["glass"; "ceramic"; "paper"]%string.

(** [HapticFeedbackSimulator.contact_feedback]: the simulator and the beeps
    it requests. *)
Definition contact_feedback (h : HapticFeedbackSimulator)
    (material : option string) (grip : Z)
    : HapticFeedbackSimulator * list Sound :=
  match material with
  | Some m =>
      if Py.truthy material then
        match MATERIAL_DATABASE !! m with
        | Some mat_info =>
            let freq := sound_freq mat_info in
            let duration := (0.2 + Py.float_of_int grip / 400)%float in
            let volume :=
              Py.min_with (0.4 + Py.float_of_int grip / 250)%float 0.8%float in
            ({| last_beep_time := last_beep_time h;
                proximity_alert_active := proximity_alert_active h;
                contact_feedback_active := true;
                feedback_animation := 35 |},
             {| sound_delay := None; sound_frequency := Hz freq;
                sound_duration := duration; sound_volume := volume |}
             :: (if (70 <? grip) && bool_decide (m ∈ fragile_materials)
                 then [{| sound_delay := Some 0.15%float;
                          sound_frequency :=
                            HzFloat (Py.float_of_int freq * 1.3)%float;
                          sound_duration := 0.1%float;
                          sound_volume := (volume * 0.7)%float |}]
                 else []))
        | None => (h, [])
        end
      else (h, [])
  | None => (h, [])
  end.

(** The distance and proximity part of a cycle with a box (source lines
    1333-1338), the frame being [frame_h] by [frame_w]: the simulator, the
    distance and the beep. *)
Definition proximity_step (h : HapticFeedbackSimulator) (current_time : float)
    (box : Z * Z * Z * Z) (frame_h frame_w : Z)
    : option (HapticFeedbackSimulator * Z * list Sound) :=
  let '(x1, y1, x2, y2) := box in
  let box_area := (x2 - x1) * (y2 - y1) in
  distance ← estimate_distance box_area (frame_h * frame_w);
  if distance <=? 10 then
    let '(h', _, sounds) := proximity_alert h current_time distance in
    Some (h', distance, sounds)
  else Some (h, distance, []).

(** ** Insight tables and insight sounds *)

(** A value of an insight entry: a string, or a list of strings. *)
Inductive InsightValue :=
  | Text (s : string)
  | Texts (l : list string).

#[global] Instance InsightValue_eq_dec : EqDecision InsightValue.
Proof. solve_decision. Defined.

(** The items of the [OBJECT_INSIGHTS] display, in source order. *)
Definition OBJECT_INSIGHTS_items : list (string * list (string * InsightValue)) :=
  [ ("wine glass",
      [ ("insight", Text "⚠️ Fragile - Handle with extreme care to avoid breakage");
       ("warning_level", Text "high");
       ("icon", Text "🍷");
       ("tips", Texts ["Use gentle grip"; "Support from bottom"; "Avoid stem pressure"]) ]);
    ("cup",
      [ ("insight", Text "☕ Check if hot - May contain beverages, test temperature first");
       ("warning_level", Text "medium");
       ("icon", Text "☕");
       ("tips", Texts ["Test temperature"; "Grip handle if available"; "Moderate pressure"]) ]);
    ("bottle",
      [ ("insight", Text "💧 Check cap status - Ensure lid is secure before lifting");
       ("warning_level", Text "medium");
       ("icon", Text "🧴");
       ("tips", Texts ["Verify cap is closed"; "Grip at center"; "Steady lift"]) ]);
    ("vase",
      [ ("insight", Text "🏺 Decorative & fragile - High risk of dropping, use two points");
       ("warning_level", Text "high");
       ("icon", Text "🏺");
       ("tips", Texts ["Support base and sides"; "Slow movements"; "Check for water inside"]) ]);
    ("knife",
      [ ("insight", Text "⚠️ SHARP EDGE - Grip handle only, blade poses cut risk");
       ("warning_level", Text "critical");
       ("icon", Text "🔪");
       ("tips", Texts ["Handle grip only"; "Blade away from body"; "Secure grip needed"]) ]);
    ("scissors",
      [ ("insight", Text "✂️ Sharp points - Handle with care, check blade position");
       ("warning_level", Text "high");
       ("icon", Text "✂️");
       ("tips", Texts ["Closed position best"; "Grip handles"; "Point awareness"]) ]);
    ("fork",
      [ ("insight", Text "🍴 Pointed tines - Be aware of prong direction");
       ("warning_level", Text "medium");
       ("icon", Text "🍴");
       ("tips", Texts ["Tines down when moving"; "Firm but gentle"; "Watch orientation"]) ]);
    ("cell phone",
      [ ("insight", Text "📱 Sensitive screen - Avoid excessive pressure on display");
       ("warning_level", Text "medium");
       ("icon", Text "📱");
       ("tips", Texts ["Edge grip preferred"; "Avoid screen pressure"; "Check for case"]) ]);
    ("laptop",
      [ ("insight", Text "💻 Heavy & valuable - Use two contact points for stability");
       ("warning_level", Text "medium");
       ("icon", Text "💻");
       ("tips", Texts ["Support with both sides"; "Avoid screen area"; "Check if closed"]) ]);
    ("remote",
      [ ("insight", Text "📺 Electronic device - Gentle grip to avoid button presses");
       ("warning_level", Text "low");
       ("icon", Text "📺");
       ("tips", Texts ["Side grip"; "Light pressure"; "Avoid button area"]) ]);
    ("keyboard",
      [ ("insight", Text "⌨️ Delicate keys - Lift from edges, not key surface");
       ("warning_level", Text "medium");
       ("icon", Text "⌨️");
       ("tips", Texts ["Edge grip only"; "Avoid key pressure"; "Check for cables"]) ]);
    ("mouse",
      [ ("insight", Text "🖱️ Small & light - Gentle grip, easy to over-squeeze");
       ("warning_level", Text "low");
       ("icon", Text "🖱️");
       ("tips", Texts ["Light touch"; "Palm support"; "Avoid click buttons"]) ]);
    ("apple",
      [ ("insight", Text "🍎 Bruises easily - Moderate grip to avoid damaging fruit");
       ("warning_level", Text "low");
       ("icon", Text "🍎");
       ("tips", Texts ["Gentle pressure"; "Avoid fingernail marks"; "Even distribution"]) ]);
    ("banana",
      [ ("insight", Text "🍌 Very soft - Minimal pressure needed, bruises instantly");
       ("warning_level", Text "low");
       ("icon", Text "🍌");
       ("tips", Texts ["Very gentle"; "Support full length"; "Minimal squeeze"]) ]);
    ("orange",
      [ ("insight", Text "🍊 Firm but can burst - Balanced grip to avoid juice leakage");
       ("warning_level", Text "low");
       ("icon", Text "🍊");
       ("tips", Texts ["Medium pressure"; "Even grip"; "Watch for soft spots"]) ]);
    ("sandwich",
      [ ("insight", Text "🥪 Compressible - Light grip to maintain structure");
       ("warning_level", Text "low");
       ("icon", Text "🥪");
       ("tips", Texts ["Gentle hold"; "Support from bottom"; "Avoid crushing"]) ]);
    ("hot dog",
      [ ("insight", Text "🌭 Soft & messy - May have condiments, gentle handling");
       ("warning_level", Text "low");
       ("icon", Text "🌭");
       ("tips", Texts ["Light grip"; "Horizontal hold"; "Mind the filling"]) ]);
    ("pizza",
      [ ("insight", Text "🍕 Hot & floppy - Support underneath, check temperature");
       ("warning_level", Text "medium");
       ("icon", Text "🍕");
       ("tips", Texts ["Bottom support"; "Test heat"; "Fold technique"]) ]);
    ("cake",
      [ ("insight", Text "🍰 Very delicate - Extremely gentle or use utensil");
       ("warning_level", Text "high");
       ("icon", Text "🍰");
       ("tips", Texts ["Plate grip preferred"; "Minimal contact"; "Support base"]) ]);
    ("spoon",
      [ ("insight", Text "🥄 May contain liquid - Keep level to avoid spills");
       ("warning_level", Text "low");
       ("icon", Text "🥄");
       ("tips", Texts ["Handle grip"; "Keep level"; "Smooth movements"]) ]);
    ("toothbrush",
      [ ("insight", Text "🪥 Hygiene item - Clean grip area, bristles are delicate");
       ("warning_level", Text "low");
       ("icon", Text "🪥");
       ("tips", Texts ["Handle only"; "Light grip"; "Avoid bristle area"]) ]);
    ("umbrella",
      [ ("insight", Text "☂️ Extendable - Check if open/closed, mind the mechanism");
       ("warning_level", Text "medium");
       ("icon", Text "☂️");
       ("tips", Texts ["Handle grip"; "Check state"; "Avoid trigger area"]) ]);
    ("bowl",
      [ ("insight", Text "🥣 May contain items - Check for contents before lifting");
       ("warning_level", Text "medium");
       ("icon", Text "🥣");
       ("tips", Texts ["Bottom support"; "Check contents"; "Level movement"]) ]);
    ("backpack",
      [ ("insight", Text "🎒 Variable weight - Test weight first, may be heavy");
       ("warning_level", Text "medium");
       ("icon", Text "🎒");
       ("tips", Texts ["Test weight"; "Strap grip"; "Lift preparation"]) ]);
    ("handbag",
      [ ("insight", Text "👜 Contains valuables - Secure grip, check strap strength");
       ("warning_level", Text "medium");
       ("icon", Text "👜");
       ("tips", Texts ["Handle secure"; "Test weight"; "Strap check"]) ]);
    ("suitcase",
      [ ("insight", Text "🧳 Potentially heavy - Use handle, test weight before lifting");
       ("warning_level", Text "high");
       ("icon", Text "🧳");
       ("tips", Texts ["Handle only"; "Test weight first"; "Consider wheels"]) ]);
    ("book",
      [ ("insight", Text "📚 Pages are delicate - Grip cover edges, avoid page damage");
       ("warning_level", Text "low");
       ("icon", Text "📚");
       ("tips", Texts ["Edge grip"; "Support spine"; "Gentle handling"]) ]);
    ("newspaper",
      [ ("insight", Text "📰 Very thin paper - Extremely light touch required");
       ("warning_level", Text "low");
       ("icon", Text "📰");
       ("tips", Texts ["Minimal pressure"; "Flat support"; "Edge handling"]) ]);
    ("chair",
      [ ("insight", Text "🪑 Heavy furniture - Check stability before moving");
       ("warning_level", Text "high");
       ("icon", Text "🪑");
       ("tips", Texts ["Two-point grip"; "Test weight"; "Lift with care"]) ]);
    ("potted plant",
      [ ("insight", Text "🪴 Living organism + soil - May be wet, check weight");
       ("warning_level", Text "medium");
       ("icon", Text "🪴");
       ("tips", Texts ["Base support"; "Check moisture"; "Soil awareness"]) ]);
    ("sports ball",
      [ ("insight", Text "⚽ Inflatable - Check pressure, adjust grip accordingly");
       ("warning_level", Text "low");
       ("icon", Text "⚽");
       ("tips", Texts ["Firm grip OK"; "Check inflation"; "Bounce test"]) ]);
    ("baseball bat",
      [ ("insight", Text "⚾ Hard wood/metal - Grip handle firmly, mind the weight");
       ("warning_level", Text "medium");
       ("icon", Text "⚾");
       ("tips", Texts ["Handle grip"; "Weight awareness"; "Secure hold"]) ]);
    ("tennis racket",
      [ ("insight", Text "🎾 Stringed surface - Avoid string contact, grip handle");
       ("warning_level", Text "medium");
       ("icon", Text "🎾");
       ("tips", Texts ["Handle only"; "Avoid strings"; "Check head weight"]) ]);
    ("default",
      [ ("insight", Text "👁️ Analyzing object - Adjusting grip based on detection");
       ("warning_level", Text "low");
       ("icon", Text "🔍");
       ("tips", Texts ["Assess carefully"; "Test weight"; "Start gentle"]) ]) ]%string.

(** The items of the [MATERIAL_INSIGHTS] display, in source order. *)
Definition MATERIAL_INSIGHTS_items : list (string * list (string * InsightValue)) :=
  [ ("granite",
      [ ("insight", Text "🪨 Granite - Extremely hard, heavy material. Very durable but requires strong grip");
       ("warning_level", Text "high");
       ("icon", Text "🪨");
       ("properties", Texts ["Hardness: 9/10"; "Weight: Heavy"; "Surface: Rough/Polished"]);
       ("tips", Texts ["Use firm grip (70-85%)"; "Check weight before lifting"; "Watch for sharp edges"]);
       ("handling", Text "Granite is extremely dense and heavy. Requires substantial grip strength but beware of sharp corners. Surface may be polished (slippery) or rough (better grip).");
       ("safety", Text "Risk of crushing injury if dropped. Sharp edges can cause cuts. Support from bottom when lifting large pieces.") ]);
    ("marble",
      [ ("insight", Text "🗿 Marble - Smooth, polished surface. Heavy but can be fragile");
       ("warning_level", Text "high");
       ("icon", Text "🗿");
       ("properties", Texts ["Hardness: 7/10"; "Weight: Heavy"; "Surface: Polished/Smooth"]);
       ("tips", Texts ["Moderate-firm grip (60-75%)"; "Slippery when wet"; "Handle with care - can crack"]);
       ("handling", Text "Marble is heavy with a smooth surface that can be slippery. Requires balanced grip - not too tight to avoid strain, but firm enough to prevent drops.");
       ("safety", Text "High weight risk. Polished surface is slippery. May have natural fractures that weaken structure.") ]);
    ("metal",
      [ ("insight", Text "⚙️ Metal - Conductive, may be hot or cold. Sharp edges possible");
       ("warning_level", Text "medium");
       ("icon", Text "⚙️");
       ("properties", Texts ["Hardness: 8/10"; "Weight: Variable"; "Surface: Smooth/Textured"]);
       ("tips", Texts ["Test temperature first"; "Check for sharp edges"; "Moderate grip (50-70%)"]);
       ("handling", Text "Metal objects can be hot, cold, or have sharp edges. Test temperature before full grip. Adjust grip strength based on object size and weight.");
       ("safety", Text "Temperature extremes possible. Sharp edges can cut. Electrical conductivity risk if powered.") ]);
    ("glass",
      [ ("insight", Text "💎 Glass - Extremely fragile, sharp when broken. Requires gentle precision");
       ("warning_level", Text "critical");
       ("icon", Text "💎");
       ("properties", Texts ["Hardness: 6/10"; "Weight: Light-Medium"; "Surface: Smooth/Slippery"]);
       ("tips", Texts ["Very gentle grip (30-50%)"; "Support from bottom"; "Avoid pressure points"]);
       ("handling", Text "Glass requires extremely careful handling. Use gentle, distributed pressure. Support from multiple points. Avoid concentrated pressure that can cause breakage.");
       ("safety", Text "CRITICAL: Breaks into sharp fragments. High risk of injury. Always handle with extreme care.") ]);
    ("wood",
      [ ("insight", Text "🪵 Wood - Natural texture provides grip. Watch for splinters");
       ("warning_level", Text "low");
       ("icon", Text "🪵");
       ("properties", Texts ["Hardness: 4/10"; "Weight: Light-Medium"; "Surface: Textured"]);
       ("tips", Texts ["Moderate grip (45-60%)"; "Check for splinters"; "Natural grip advantage"]);
       ("handling", Text "Wood provides natural grip due to texture. Moderate grip strength usually sufficient. Check for rough edges or splinters before handling.");
       ("safety", Text "Splinter risk on rough surfaces. May have sharp edges from cuts. Generally safe to handle.") ]);
    ("fabric",
      [ ("insight", Text "🧵 Fabric - Soft, flexible. Low grip requirement but can slip");
       ("warning_level", Text "low");
       ("icon", Text "🧵");
       ("properties", Texts ["Hardness: 1/10"; "Weight: Light"; "Surface: Soft/Textured"]);
       ("tips", Texts ["Light grip (25-40%)"; "May bunch up"; "Check for contents"]);
       ("handling", Text "Fabric requires minimal grip strength. However, smooth fabrics can slip. Check for contents inside bags or containers.");
       ("safety", Text "Low risk. May contain items inside. Watch for zippers or sharp hardware.") ]);
    ("plastic",
      [ ("insight", Text "🪣 Plastic - Lightweight, varies in hardness. Can be slippery");
       ("warning_level", Text "low");
       ("icon", Text "🪣");
       ("properties", Texts ["Hardness: 3-5/10"; "Weight: Light"; "Surface: Smooth/Textured"]);
       ("tips", Texts ["Light-moderate grip (40-60%)"; "Check for cracks"; "May be slippery"]);
       ("handling", Text "Plastic is generally lightweight but can be slippery. Adjust grip based on object size. Check for cracks or weak points.");
       ("safety", Text "Low to medium risk. May have sharp edges from molding. Can crack under pressure.") ]);
    ("ceramic",
      [ ("insight", Text "🏺 Ceramic - Hard but brittle. Can break from impact or pressure");
       ("warning_level", Text "high");
       ("icon", Text "🏺");
       ("properties", Texts ["Hardness: 7/10"; "Weight: Medium"; "Surface: Smooth/Glazed"]);
       ("tips", Texts ["Firm but careful grip (60-75%)"; "Support from bottom"; "Avoid impacts"]);
       ("handling", Text "Ceramic requires firm grip to prevent drops, but avoid excessive pressure that can cause cracks. Support from base is crucial.");
       ("safety", Text "High breakage risk. Sharp fragments when broken. Glazed surfaces can be slippery.") ]);
    ("paper",
      [ ("insight", Text "📄 Paper - Extremely delicate. Minimal pressure required");
       ("warning_level", Text "low");
       ("icon", Text "📄");
       ("properties", Texts ["Hardness: 1/10"; "Weight: Very Light"; "Surface: Smooth"]);
       ("tips", Texts ["Very light grip (20-35%)"; "Avoid creasing"; "Support flat surface"]);
       ("handling", Text "Paper requires minimal grip strength. Use light, distributed pressure. Avoid bending or creasing. Support from flat surface.");
       ("safety", Text "Very low risk. Can tear easily. Sharp edges from cuts possible.") ]);
    ("stone",
      [ ("insight", Text "🪨 Stone/Granite - Extremely hard, heavy material. Very durable but requires strong grip");
       ("warning_level", Text "high");
       ("icon", Text "🪨");
       ("properties", Texts ["Hardness: 9/10"; "Weight: Heavy"; "Surface: Rough/Polished"]);
       ("tips", Texts ["Use firm grip (70-85%)"; "Check weight before lifting"; "Watch for sharp edges"]);
       ("handling", Text "Stone (granite, marble, etc.) is extremely dense and heavy. Requires substantial grip strength but beware of sharp corners. Surface may be polished (slippery) or rough (better grip).");
       ("safety", Text "Risk of crushing injury if dropped. Sharp edges can cause cuts. Support from bottom when lifting large pieces.") ]) ]%string.

(** A dictionary display whose values are dictionary displays. *)
Definition nested_dict_display
    (items : list (string * list (string * InsightValue)))
    : gmap string (gmap string InsightValue) :=
  Py.dict_display (map (fun kv => (fst kv, Py.dict_display (snd kv))) items).

Definition OBJECT_INSIGHTS : gmap string (gmap string InsightValue) :=
  nested_dict_display OBJECT_INSIGHTS_items.

Definition MATERIAL_INSIGHTS : gmap string (gmap string InsightValue) :=
  nested_dict_display MATERIAL_INSIGHTS_items.

(** [IntegratedProstheMind.get_object_insight]; [None] stands for the
    [KeyError] of a table without a ["default"] entry. *)
Definition get_object_insight (object_name : string)
    : option (gmap string InsightValue) :=
  match OBJECT_INSIGHTS !! object_name with
  | Some insight => Some insight
  | None => OBJECT_INSIGHTS !! "default"%string
  end.

(** [IntegratedProstheMind.get_material_insight]; here [None] is the [None]
    that the function returns. *)
Definition get_material_insight (material_name : option string)
    : option (gmap string InsightValue) :=
  match material_name with
  | Some name =>
      if Py.truthy material_name then
        if bool_decide (name = "stone"%string) then
          match MATERIAL_INSIGHTS !! "granite"%string with
          | Some insight => Some insight
          | None => MATERIAL_INSIGHTS !! "stone"%string
          end
        else MATERIAL_INSIGHTS !! name
      else None
  | None => None
  end.

(** [HapticFeedbackSimulator.object_insight_alert]: the beeps it requests
    for the value found under ["warning_level"]. *)
Definition object_insight_alert (warning_level : InsightValue)
    : list HapticRequest :=
  if bool_decide (warning_level = Text "critical") then
    [Beep 900 0.15 0.7; DelayedBeep 0.1 900 0.15 0.7]
  else if bool_decide (warning_level = Text "high") then [Beep 700 0.2 0.6]
  else if bool_decide (warning_level = Text "medium") then [Beep 500 0.15 0.5]
  else [Beep 400 0.1 0.4].

(** The insight attributes of [IntegratedProstheMind]. *)
Record InsightState := {
  current_insight : option (gmap string InsightValue);
  current_material_insight : option (gmap string InsightValue);
  insight_animation : Z;
  last_insight_sound : float
}.

(** The object-insight part of a cycle with a box (source lines 1318-1331),
    [current_time] being the value of [time.time()] there: the insight
    attributes and the beeps.  The entries read for the alert and the
    printed lines must exist. *)
Definition object_insight_step (i : InsightState)
    (previous_object : option string) (current_time : float)
    (detected_object : string) : option (InsightState * list HapticRequest) :=
  if bool_decide (Some detected_object = previous_object) then Some (i, [])
  else
    insight ← get_object_insight detected_object;
    if (1.5 <? current_time - last_insight_sound i)%float then
      level ← insight !! "warning_level"%string;
      _ ← insight !! "insight"%string;
      _ ← insight !! "tips"%string;
      Some ({| current_insight := Some insight;
               current_material_insight := current_material_insight i;
               insight_animation := 20;
               last_insight_sound := current_time |},
            object_insight_alert level)
    else
      Some ({| current_insight := Some insight;
               current_material_insight := current_material_insight i;
               insight_animation := 20;
               last_insight_sound := last_insight_sound i |},
            []).

(** The material-insight part of an accepted grip (source lines 1357-1379),
    for the smoothed material. *)
Definition material_insight_step (i : InsightState) (current_time : float)
    (material : string) (is_new_material : bool)
    : option (InsightState * list HapticRequest) :=
  if is_new_material then
    match get_material_insight (Some material) with
    | Some insight =>
        if bool_decide (insight = ∅) then
          Some ({| current_insight := current_insight i;
                   current_material_insight := Some insight;
                   insight_animation := insight_animation i;
                   last_insight_sound := last_insight_sound i |},
                [])
        else
          '(last, sounds) ←
            (if (1.5 <? current_time - last_insight_sound i)%float then
               level ← insight !! "warning_level"%string;
               Some (current_time, object_insight_alert level)
             else Some (last_insight_sound i, []));
          _ ← insight !! "insight"%string;
          _ ← insight !! "tips"%string;
          Some ({| current_insight := current_insight i;
                   current_material_insight := Some insight;
                   insight_animation := insight_animation i;
                   last_insight_sound := last |},
                sounds)
    | None =>
        Some ({| current_insight := current_insight i;
                 current_material_insight := None;
                 insight_animation := insight_animation i;
                 last_insight_sound := last_insight_sound i |},
              [])
    end
  else Some (i, []).

(** The four warning levels that [object_insight_alert] tells apart. *)
Definition warning_levels : list string :=
  ["critical"; "high"; "medium"; "low"]%string.

(** An entry with the keys that the cycle reads: a warning level among the
    four, an insight text and tips. *)
Definition insight_entry_ok (insight : gmap string InsightValue) : bool :=
  match insight !! "warning_level"%string, insight !! "insight"%string,
        insight !! "tips"%string with
  | Some (Text level), Some (Text _), Some (Texts _) =>
      bool_decide (level ∈ warning_levels)
  | _, _, _ => false
  end.

(** The beeps of the four warning levels. *)
Definition insight_sounds : list (list HapticRequest) :=
  [ [Beep 900 0.15 0.7; DelayedBeep 0.1 900 0.15 0.7];
    [Beep 700 0.2 0.6]; [Beep 500 0.15 0.5]; [Beep 400 0.1 0.4] ].

(** The insight attributes set by [IntegratedProstheMind.__init__]. *)
Definition InsightState_init : InsightState :=
  {| current_insight := None; current_material_insight := None;
     insight_animation := 0; last_insight_sound := 0%float |}.

(** The pain model after [cycles] not-gripping updates
    ([update_pain_level(0, None, False)], as the cycle calls it). *)
Fixpoint at_rest (cycles : nat) (p : PainFeedbackSystem)
    : option PainFeedbackSystem :=
  match cycles with
  | O => Some p
  | S k => p1 ← update_pain_level p 0 None false; at_rest k p1
  end.

(** ** Invariants *)

(** The range of a grip and of a pain level. *)
Definition in_range (x : Z) : Prop := 0 <= x <= 100.

(** The integer mean of a history ([0] for an empty one). *)
Definition mean_int (l : list Z) : Z := Py.sum_int l / Z.of_nat (length l).

(** [int(np.mean(d))] is the integer quotient of the sum [t] by the length
    [n]: the test that is run over every sum and length a history of at most
    twenty samples between 0 and 100 can have. *)
Definition mean_is_quotient (n t : Z) : bool :=
  match Py.int_of_float (Py.float_of_int t / Py.float_of_int n)%float with
  | Some q => q =? t / n
  | None => false
  end.

(** A well-formed pain model: level and samples in range, at most twenty
    samples. *)
Record pain_ok (p : PainFeedbackSystem) : Prop := {
  pain_level_ok : in_range (pain_level p);
  pain_history_ok : Forall in_range (pain_history p);
  pain_history_len : (length (pain_history p) <= 20)%nat
}.

(** A grip target: a base grip strength of the material table, or the [0]
    appended when contact is lost. *)
Definition base_grip_or_zero (g : Z) : Prop :=
  g = 0 \/ exists m info,
             MATERIAL_DATABASE !! m = Some info /\ g = grip_strength info.

(** A well-formed session state. *)
Record state_ok (s : ProstheMind) : Prop := {
  ok_pain : pain_ok (pain_system s);
  ok_pain_mean :
    pain_level (pain_system s) = mean_int (pain_history (pain_system s))
    \/ pain_level (pain_system s) = 0;
  ok_grip_history : Forall base_grip_or_zero (grip_history s);
  ok_grip_len : (length (grip_history s) <= 15)%nat;
  ok_grip_mean : current_grip s = mean_int (grip_history s)
}.

(** The regime of a long-held grip: strain at its cap of 50, relief mode on,
    every sample of the history at least 40. *)
Record saturated (p : PainFeedbackSystem) : Prop := {
  sat_strain : strain_accumulation p = 50%float;
  sat_relief : relief_mode p = true;
  sat_ok : pain_ok p;
  sat_history : Forall (fun x => 40 <= x) (pain_history p)
}.

(** ** Vocabulary of the properties *)

(** Each system of a trace obeys the two thresholds with respect to the
    relief mode before it. *)
Fixpoint hysteretic (previous : bool) (trace : list PainFeedbackSystem) : Prop :=
  match trace with
  | [] => True
  | q :: rest =>
      (75 < pain_level q -> relief_mode q = true)
      /\ (pain_level q < 40 -> relief_mode q = false)
      /\ (40 <= pain_level q <= 75 -> relief_mode q = previous)
      /\ hysteretic (relief_mode q) rest
  end.

(** The confidence after [k] cycles without a box, from confidence [c]. *)
Fixpoint decayed (k : nat) (c : float) : float :=
  match k with
  | O => c
  | S k' => decayed k' (Py.max0 (c - 0.05)%float)
  end.

(** The number of cycles without a box after which a confidence of 1.0 is
    first below the floor 0.1. *)
Definition decay_steps_to_floor : nat :=
  default 0%nat
    (find (fun k => (decayed k 1.0 <? 0.1)%float) (seq 1 100)).

(** The state [s] with another confidence. *)
Definition set_confidence (c : float) (s : ProstheMind) : ProstheMind :=
  {| pain_system := pain_system s;
     current_material := current_material s;
     current_object := current_object s;
     current_grip := current_grip s; target_grip := target_grip s;
     confidence := c;
     grip_history := grip_history s;
     material_history := material_history s;
     was_in_contact := was_in_contact s;
     contact_frame_count := contact_frame_count s;
     last_pain_alert := last_pain_alert s |}.

(** Cycles without a box, at the given times. *)
Definition no_box (nows : list float) : list Command :=
  map (fun now => Cycle now NoDetection) nows.

(** [m] is a most frequent entry of the deque [d]. *)
Definition is_mode (m : string) (d : list string) : Prop :=
  m ∈ d /\ forall x, Py.count d x <= Py.count d m.

(** Smoothing as the specification words it: the raw material passes
    through as long as the window of ten is not full. *)
Definition passes_raw_until_full (set_order : list string -> list string) : Prop :=
  forall history raw history' out,
    smooth_material set_order history raw = Some (history', out) ->
    (length history' < material_history_maxlen)%nat -> out = raw.

(** The not-gripping update: the sample [max(0, level - 2)] enters the pain
    history, the level is the mean of the history, strain goes down by 0.5
    and not below 0. *)
Definition idle_decay (p p' : PainFeedbackSystem) : Prop :=
  pain_history p'
  = Py.deque_append pain_history_maxlen (Z.max 0 (pain_level p - 2))
                    (pain_history p)
  /\ pain_level p' = mean_int (pain_history p')
  /\ strain_accumulation p' = Py.max0 (strain_accumulation p - 0.5)%float
  /\ relief_mode p' = relief_after (pain_level p') (relief_mode p).

(** A cycle without an accepted grip, the confidence decaying by [step]
    toward [floor]. *)
Definition without_grip (step floor : float) (s s' : ProstheMind)
    (evs : list Event) : Prop :=
  if (Py.max0 (confidence s - step) <? floor)%float
  then pain_updates evs = [PainUpdate 0 None false]
       /\ idle_decay (pain_system s) (pain_system s')
  else pain_updates evs = [] /\ pain_system s' = pain_system s.

(** The cycle's observation leads to the accepted-grip branch. *)
Definition has_accepted_grip (obs : Observation) : bool :=
  match obs with
  | Detected obj features =>
      match accepted (classify_material features (Some obj)) with
      | Some _ => true
      | None => false
      end
  | NoDetection => false
  end.

(** ** Concrete scenarios *)

(** Concrete runs iterate over [set(d)] in order of first occurrence. *)
Definition first_seen_order : list string -> list string := remove_dups.

(** The state after a run from start-up ([ProstheMind_init] if it raised). *)
Definition state_after (cs : list Command) : ProstheMind :=
  match run first_seen_order ProstheMind_init cs with
  | Some (s, _) => s
  | None => ProstheMind_init
  end.

(** Features of a rough, dark, unsaturated region. *)
Definition rough_features : Features :=
  {| edge_density := 0.5; texture_energy := 12000; brightness_std := 0;
     saturation_mean := 0; highlight_ratio := 0 |}.

(** A cycle that detects [object] at time [now]. *)
Definition see (now : float) (object : string) : Command :=
  Cycle now (Detected object (Some rough_features)).


Definition metal : option string := Some "metal"%string.

(** Metal held at grip 90, cycle after cycle. *)
Definition metal_grip (cycles : nat) : list (Z * option string * bool) :=
  repeat (90, metal, true) cycles.

Definition metal_trace (cycles : nat) : list PainFeedbackSystem :=
  default [] (feed_pain PainFeedbackSystem_init (metal_grip cycles)).

(** An unlisted object on a region whose winning score exceeds the total of
    the scores: stone, with a confidence of exactly 1.0. *)
Definition full_confidence_state : ProstheMind :=
  state_after [see 10 "person"].

(** One cycle of contact with a wine glass. *)
Definition glass_contact : ProstheMind := state_after [see 10 "wine glass"].

(** Contact with glass, then fourteen and fifteen cycles without a box. *)
Definition glass_lost : ProstheMind :=
  state_after (see 10 "wine glass" :: no_box (repeat 11%float 14)).

Definition glass_lost_next : ProstheMind :=
  state_after (see 10 "wine glass" :: no_box (repeat 11%float 15)).

(** Fifty cycles of contact with a wine glass: relief mode is on. *)
Definition glass_relief : ProstheMind :=
  state_after (repeat (see 10 "wine glass") 50).

(** A knife, then four cycles of a wine glass: the reported level is 50. *)
Definition glass_after_knife : ProstheMind :=
  state_after [see 10 "knife"; see 20 "wine glass"; see 30 "wine glass";
               see 40 "wine glass"; see 50 "wine glass"].

(** The first thirty cycles of metal held at grip 90: strain under 14, level
    at most 61, no relief. *)
Definition early_check (cycles : nat) : bool :=
  match held 90 metal cycles with
  | Some p =>
      (strain_accumulation p <? 14)%float
      && (pain_level p <=? 61) && negb (relief_mode p)
  | None => false
  end.

(** What holds after [cycles] cycles of metal held at grip 90, for the
    cycles before the strain cap is reached. *)
Definition scenario_check (cycles : nat) : bool :=
  match held 90 metal cycles with
  | Some p =>
      implb (cycles <=? 30)%nat
            ((strain_accumulation p <? 14)%float
             && (pain_level p <=? 61) && negb (relief_mode p))
      && implb (cycles <? 63)%nat
               ((pain_level p <=? 75) && negb (relief_mode p))
      && implb (cycles =? 63)%nat (pain_level p =? 76)
      && implb (63 <=? cycles)%nat (relief_mode p)
      && implb (cycles <? 112)%nat (strain_accumulation p <? 50)%float
  | None => false
  end.

(** ** Further invariants of the session state *)

(** The calls of [haptic.contact_feedback] among the events of a cycle. *)
Definition is_contact_feedback (e : Event) : bool :=
  match e with ContactFeedback _ _ => true | _ => false end.

Definition contact_feedbacks (evs : list Event) : list Event :=
  List.filter is_contact_feedback evs.

(** A command that is a detection cycle with an accepted grip. *)
Definition is_accepted_cycle (c : Command) : Prop :=
  match c with
  | Cycle _ obs => has_accepted_grip obs = true
  | Reset => False
  end.

(** The material side of a well-formed session state: the material history
    holds at most ten keys of the material table; a current material is a
    key of the table whose base grip is the target grip, with the contact
    flag set and a confidence not below 0.1; the contact counter is within
    0..29. *)
Record session_ok (s : ProstheMind) : Prop := {
  so_materials :
    Forall (fun m => is_Some (MATERIAL_DATABASE !! m)) (material_history s);
  so_materials_len : (length (material_history s) <= 10)%nat;
  so_current :
    forall m, current_material s = Some m ->
      (exists info, MATERIAL_DATABASE !! m = Some info
                    /\ target_grip s = grip_strength info)
      /\ was_in_contact s = true
      /\ (confidence s <? 0.1)%float = false;
  so_count : 0 <= contact_frame_count s <= 29
}.

(** Thirty cycles of a wine glass, one second apart, after one cycle of
    contact. *)
Definition thirty_glass_cycles : list Command :=
  map (fun k => see (Py.float_of_int k) "wine glass") (seqZ 11 30).

(** The events of these cycles, from [glass_contact]. *)
Definition thirty_glass_events : list (list Event) :=
  match run first_seen_order glass_contact thirty_glass_cycles with
  | Some (_, evss) => evss
  | None => []
  end.

(** The state after them. *)
Definition glass_held : ProstheMind :=
  state_after (see 10 "wine glass" :: thirty_glass_cycles).

(** The state after a wine glass seen at times 10 and 11, a reset, and a
    wine glass seen at time 14. *)
Definition glass_alerted_twice : ProstheMind :=
  state_after [see 10 "wine glass"; see 11 "wine glass"; Reset;
               see 14 "wine glass"].

(** The level and every sample of the pain history are at most [bound]. *)
Definition pain_below (bound : Z) (p : PainFeedbackSystem) : Prop :=
  pain_level p <= bound /\ Forall (fun x => x <= bound) (pain_history p).

(** After [j] not-gripping updates from a pain model under [bound]: the
    last [j] samples are under [lower], the older ones under [bound]. *)
Definition pain_fading (j : nat) (bound lower : Z) (p : PainFeedbackSystem)
    : Prop :=
  pain_level p <= bound
  /\ exists old new,
       pain_history p = old ++ new
       /\ length new = j
       /\ (length old + j <= 20)%nat
       /\ Forall (fun x => x <= bound) old
       /\ Forall (fun x => x <= lower) new.

(** Metal held at grip 90 for 62 and for 63 cycles. *)
Definition metal_62 : PainFeedbackSystem :=
  default PainFeedbackSystem_init (held 90 metal 62).

Definition metal_63 : PainFeedbackSystem :=
  default PainFeedbackSystem_init (held 90 metal 63).

(** ** Facts about the Python primitives *)

Lemma mean_table :
  forallb (fun n => forallb (mean_is_quotient n) (seqZ 0 (100 * n + 1)))
          (seqZ 1 20) = true.
Proof. vm_compute. reflexivity. Qed.

Lemma sum_int_bounds (l : list Z) :
  Forall in_range l -> 0 <= Py.sum_int l <= 100 * Z.of_nat (length l).
Proof.
  induction 1 as [|x l Hx _ IH]; simpl; [lia|].
  unfold in_range in Hx. lia.
Qed.

Lemma np_mean_exact (l : list Z) :
  l <> [] -> (length l <= 20)%nat -> Forall in_range l ->
  Py.int_of_float (Py.np_mean l)
  = Some (Py.sum_int l / Z.of_nat (length l)).
Proof.
  intros Hne Hlen Hall.
  pose proof (sum_int_bounds l Hall) as Hsum.
  assert (Hn : 1 <= Z.of_nat (length l) <= 20)
    by (destruct l; [congruence | simpl in *; lia]).
  assert (Hin_n : In (Z.of_nat (length l)) (seqZ 1 20))
    by (apply list_elem_of_In, elem_of_seqZ; lia).
  assert (Hin_t : In (Py.sum_int l) (seqZ 0 (100 * Z.of_nat (length l) + 1)))
    by (apply list_elem_of_In, elem_of_seqZ; lia).
  pose proof (proj1 (forallb_forall _ _) mean_table _ Hin_n) as T.
  pose proof (proj1 (forallb_forall _ _) T _ Hin_t) as T'.
  unfold mean_is_quotient in T'. unfold Py.np_mean.
  destruct (Py.int_of_float _) as [q|]; [|discriminate].
  apply Z.eqb_eq in T'. congruence.
Qed.

Lemma mean_in_range (l : list Z) :
  l <> [] -> Forall in_range l ->
  in_range (Py.sum_int l / Z.of_nat (length l)).
Proof.
  intros Hne Hall. pose proof (sum_int_bounds l Hall) as Hsum.
  assert (Hn : 0 < Z.of_nat (length l))
    by (destruct l; [congruence | simpl; lia]).
  split.
  - apply Z.div_pos; lia.
  - apply Z.div_le_upper_bound; lia.
Qed.

Section Deque.
Context {A : Type}.
Implicit Types (d : list A) (x : A) (P : A -> Prop).

Lemma deque_append_nonempty n x d : Py.deque_append n x d <> [].
Proof.
  unfold Py.deque_append. destruct (n <=? length d)%nat.
  - destruct (tail d); discriminate.
  - destruct d; discriminate.
Qed.

Lemma deque_append_Forall P n x d :
  Forall P d -> P x -> Forall P (Py.deque_append n x d).
Proof.
  intros Hd Hx. unfold Py.deque_append.
  destruct (n <=? length d)%nat; apply Forall_app; split; auto.
  destruct Hd; simpl; auto.
Qed.

Lemma deque_append_length n x d :
  (1 <= n)%nat -> (length d <= n)%nat ->
  (length (Py.deque_append n x d) <= n)%nat.
Proof.
  intros Hn Hd. unfold Py.deque_append.
  destruct (Nat.leb_spec n (length d)); rewrite length_app; simpl.
  - destruct d; simpl in *; lia.
  - lia.
Qed.

End Deque.

(** An entry of a dictionary display is one of its items. *)
Lemma dict_display_lookup {V : Type} (items : list (string * V)) k v :
  Py.dict_display items !! k = Some v -> (k, v) ∈ items.
Proof.
  unfold Py.dict_display.
  assert (G : forall (d : gmap string V),
             fold_left (fun d kv => <[fst kv := snd kv]> d) items d !! k = Some v ->
             (k, v) ∈ items \/ d !! k = Some v).
  { induction items as [|[k' v'] items IH]; intros d H; simpl in *.
    - right. exact H.
    - destruct (IH _ H) as [Hin | Hd].
      + left. right. exact Hin.
      + destruct (decide (k' = k)) as [->|Hne].
        * rewrite lookup_insert_eq in Hd. injection Hd as ->. left. left.
        * rewrite lookup_insert_ne in Hd by exact Hne. right. exact Hd. }
  intros H. destruct (G ∅ H) as [Hin | Hd]; [exact Hin|].
  rewrite lookup_empty in Hd. discriminate.
Qed.

Lemma MATERIAL_DATABASE_grip_in_range m info :
  MATERIAL_DATABASE !! m = Some info -> in_range (grip_strength info).
Proof.
  intros H. apply dict_display_lookup in H.
  unfold MATERIAL_DATABASE_items, in_range in *.
  repeat (apply elem_of_cons in H as [H|H];
          [injection H as _ ->; simpl; lia|]).
  apply elem_of_nil in H. destruct H.
Qed.

#[global] Arguments Py.int_of_float : simpl never.
#[global] Arguments Py.float_of_int : simpl never.
#[global] Arguments Py.np_mean : simpl never.
#[global] Arguments Py.deque_append : simpl never.
#[global] Arguments total_pain : simpl never.
#[global] Arguments strain_after_grip : simpl never.

(** ** The pain model keeps its samples in range *)

Lemma PainFeedbackSystem_init_ok : pain_ok PainFeedbackSystem_init.
Proof. split; simpl; [unfold in_range; lia | constructor | lia]. Qed.

(** What a successful [update_pain_level] has done. *)
Lemma update_pain_level_spec p grip material is_gripping p' :
  pain_ok p ->
  update_pain_level p grip material is_gripping = Some p' ->
  exists new_pain,
    in_range new_pain
    /\ (is_gripping = false -> new_pain = Z.max 0 (pain_level p - 2))
    /\ (is_gripping = true ->
        exists n, Py.int_of_float (total_pain p grip material) = Some n
                  /\ new_pain = Z.min 100 (Z.max 0 n))
    /\ pain_history p' = Py.deque_append 20 new_pain (pain_history p)
    /\ pain_level p'
       = Py.sum_int (pain_history p') / Z.of_nat (length (pain_history p'))
    /\ relief_mode p' = relief_after (pain_level p') (relief_mode p)
    /\ strain_accumulation p'
       = if is_gripping then strain_after_grip p grip
         else Py.max0 (strain_accumulation p - 0.5)%float.
Proof.
  intros [Hlevel Hhist Hlen] H. unfold update_pain_level in H.
  assert (Hnew : exists new_pain strain,
             in_range new_pain
             /\ (is_gripping = false -> new_pain = Z.max 0 (pain_level p - 2))
             /\ (is_gripping = true ->
                 exists n, Py.int_of_float (total_pain p grip material) = Some n
                           /\ new_pain = Z.min 100 (Z.max 0 n))
             /\ strain = (if is_gripping then strain_after_grip p grip
                          else Py.max0 (strain_accumulation p - 0.5)%float)
             /\ (if is_gripping then calculate_pain_from_grip p grip material
                 else Some ({| pain_level := pain_level p;
                               pain_history := pain_history p;
                               strain_accumulation :=
                                 Py.max0 (strain_accumulation p - 0.5)%float;
                               relief_mode := relief_mode p |},
                            Z.max 0 (pain_level p - 2)))
                = Some ({| pain_level := pain_level p;
                           pain_history := pain_history p;
                           strain_accumulation := strain;
                           relief_mode := relief_mode p |}, new_pain)).
  { destruct is_gripping.
    - unfold calculate_pain_from_grip in *.
      destruct (Py.int_of_float (total_pain p grip material)) as [n|] eqn:En;
        [|discriminate].
      exists (Z.min 100 (Z.max 0 n)), (strain_after_grip p grip).
      repeat split; try (unfold in_range; lia); try discriminate.
      intros _. exists n. split; reflexivity.
    - exists (Z.max 0 (pain_level p - 2)), (Py.max0 (strain_accumulation p - 0.5)%float).
      unfold in_range in *. repeat split; try lia; try discriminate. }
  destruct Hnew as (new_pain & strain & Hr & Hng & Hg & Hs & Heq).
  rewrite Heq in H. simpl in H.
  set (history := Py.deque_append pain_history_maxlen new_pain (pain_history p)) in *.
  assert (Hne : history <> []) by apply deque_append_nonempty.
  assert (Hall : Forall in_range history) by (apply deque_append_Forall; auto).
  assert (Hl : (length history <= 20)%nat)
    by (apply deque_append_length; [unfold pain_history_maxlen; lia | exact Hlen]).
  destruct history as [|h0 hs] eqn:Eh; [congruence|].
  rewrite (np_mean_exact (h0 :: hs) Hne Hl Hall) in H. simpl in H.
  injection H as <-. simpl.
  exists new_pain. subst strain. unfold in_range in Hr.
  repeat split; auto; lia.
Qed.

Lemma update_pain_level_ok p grip material is_gripping p' :
  pain_ok p ->
  update_pain_level p grip material is_gripping = Some p' ->
  pain_ok p'.
Proof.
  intros Hok H.
  destruct (update_pain_level_spec _ _ _ _ _ Hok H)
    as (new_pain & Hr & _ & _ & Hh & Hlv & _).
  destruct Hok as [Hlevel Hhist Hlen].
  assert (Hall : Forall in_range (pain_history p'))
    by (rewrite Hh; apply deque_append_Forall; auto).
  split.
  - rewrite Hlv. apply mean_in_range; [|exact Hall].
    rewrite Hh. apply deque_append_nonempty.
  - exact Hall.
  - rewrite Hh. apply deque_append_length; [lia | exact Hlen].
Qed.

(** The not-gripping update never raises on a well-formed pain model. *)
Lemma update_pain_level_idle_total p grip material :
  pain_ok p ->
  exists p', update_pain_level p grip material false = Some p'.
Proof.
  intros [Hlevel Hhist Hlen]. unfold update_pain_level. simpl.
  set (history := Py.deque_append pain_history_maxlen _ (pain_history p)).
  assert (Hne : history <> []) by apply deque_append_nonempty.
  assert (Hall : Forall in_range history).
  { apply deque_append_Forall; [exact Hhist|]. unfold in_range in *. lia. }
  assert (Hl : (length history <= 20)%nat)
    by (apply deque_append_length; [unfold pain_history_maxlen; lia | exact Hlen]).
  destruct history as [|h0 hs] eqn:Eh; [congruence|].
  rewrite (np_mean_exact (h0 :: hs) Hne Hl Hall). simpl. eauto.
Qed.

(** ** The session state keeps grip and pain in range *)

Lemma base_grip_or_zero_in_range g : base_grip_or_zero g -> in_range g.
Proof.
  intros [-> | (m & info & Hm & ->)]; [unfold in_range; lia|].
  eapply MATERIAL_DATABASE_grip_in_range; eauto.
Qed.

Lemma state_ok_grip_in_range s : state_ok s -> in_range (current_grip s).
Proof.
  intros [_ _ Hh _ Hm]. rewrite Hm.
  destruct (grip_history s) as [|g gs] eqn:E.
  - change (mean_int []) with 0. unfold in_range. lia.
  - apply mean_in_range; [discriminate|].
    eapply Forall_impl; [exact Hh | apply base_grip_or_zero_in_range].
Qed.

(** Appending a grip target and taking [int(np.mean(...))] gives the integer
    mean, and never raises. *)
Lemma grip_mean_exact (h : list Z) (g : Z) :
  Forall base_grip_or_zero h -> (length h <= 15)%nat -> base_grip_or_zero g ->
  let h' := Py.deque_append grip_history_maxlen g h in
  Py.int_of_float (Py.np_mean h') = Some (mean_int h')
  /\ Forall base_grip_or_zero h' /\ (length h' <= 15)%nat.
Proof.
  intros Hh Hl Hg h'.
  assert (Hall : Forall base_grip_or_zero h') by (apply deque_append_Forall; auto).
  assert (Hlen : (length h' <= 15)%nat)
    by (apply deque_append_length; [unfold grip_history_maxlen; lia | exact Hl]).
  split; [|split; assumption].
  apply np_mean_exact.
  - apply deque_append_nonempty.
  - lia.
  - eapply Forall_impl; [exact Hall | apply base_grip_or_zero_in_range].
Qed.

Section CycleFacts.
Variable set_order : list string -> list string.

(** What a successful accepted-grip branch has done. *)
Lemma accepted_grip_spec s now obj raw conf s1 evs :
  accepted_grip set_order s now obj raw conf = Some (s1, evs) ->
  exists history material info grip pain,
    smooth_material set_order (material_history s) raw = Some (history, material)
    /\ MATERIAL_DATABASE !! material = Some info
    /\ Py.int_of_float
         (Py.np_mean (Py.deque_append grip_history_maxlen (grip_strength info)
                                      (grip_history s)))
       = Some grip
    /\ update_pain_level (pain_system s) grip (Some material) true = Some pain
    /\ pain_system s1 = pain
    /\ current_material s1 = Some material
    /\ current_grip s1 = grip
    /\ confidence s1 = conf
    /\ grip_history s1
       = Py.deque_append grip_history_maxlen (grip_strength info) (grip_history s)
    /\ material_history s1 = history
    /\ was_in_contact s1 = true
    /\ pain_alerts evs
       = (if (60 <? pain_level pain) && (3.0 <? now - last_pain_alert s)%float
          then [PainAlert (pain_level pain) (pain_alert (pain_level pain))]
          else [])
    /\ pain_updates evs = [PainUpdate grip (Some material) true].
Proof.
  unfold accepted_grip. intros H.
  destruct (smooth_material set_order (material_history s) raw)
    as [[history material]|] eqn:Es; [|discriminate].
  simpl in H.
  destruct (MATERIAL_DATABASE !! material) as [info|] eqn:Ei; [|discriminate].
  simpl in H.
  destruct (Py.int_of_float _) as [grip|] eqn:Eg; [|discriminate].
  simpl in H.
  destruct (update_pain_level _ _ _ _) as [pain|] eqn:Ep; [|discriminate].
  simpl in H. injection H as <- <-.
  exists history, material, info, grip, pain. simpl.
  repeat (split; [reflexivity || assumption|]).
  split;
    destruct (negb (was_in_contact s) || (contact_frame_count s =? 0));
    destruct ((60 <? pain_level pain) && _); reflexivity.
Qed.

Lemma exec_ok s c s1 evs :
  state_ok s -> exec set_order s c = Some (s1, evs) -> state_ok s1.
Proof.
  intros Hok H. destruct Hok as [Hp Hpm Hgh Hgl Hgm].
  destruct c as [now [|obj features]|]; simpl in H.
  - (* no box *)
    unfold no_detection in H.
    destruct (_ <? _)%float.
    + destruct (grip_mean_exact (grip_history s) 0 Hgh Hgl (or_introl eq_refl))
        as (Em & Hall & Hlen).
      rewrite Em in H. simpl in H.
      destruct (update_pain_level _ _ _ _) as [pain|] eqn:Ep; [|discriminate].
      simpl in H. injection H as <- <-.
      destruct (update_pain_level_spec _ _ _ _ _ Hp Ep)
        as (new_pain & _ & _ & _ & _ & Hlv & _).
      split; simpl; auto. eapply update_pain_level_ok; eauto.
    + injection H as <- <-. split; simpl; auto.
  - (* a box *)
    destruct (accepted _) as [[material conf]|].
    + destruct (accepted_grip_spec _ _ _ _ _ _ _ H)
        as (history & m & info & grip & pain & _ & Hi & Eg & Ep
            & Hps & _ & Hg & _ & Hh & _).
      assert (Hb : base_grip_or_zero (grip_strength info))
        by (right; eauto).
      destruct (grip_mean_exact (grip_history s) _ Hgh Hgl Hb)
        as (Em & Hall & Hlen).
      destruct (update_pain_level_spec _ _ _ _ _ Hp Ep)
        as (new_pain & _ & _ & _ & _ & Hlv & _).
      split; rewrite ?Hh, ?Hps; auto.
      * eapply update_pain_level_ok; eauto.
      * rewrite Hg. congruence.
    + unfold weak_detection in H.
      destruct (_ <? _)%float.
      * destruct (update_pain_level _ _ _ _) as [pain|] eqn:Ep; [|discriminate].
        simpl in H. injection H as <- <-.
        destruct (update_pain_level_spec _ _ _ _ _ Hp Ep)
          as (new_pain & _ & _ & _ & _ & Hlv & _).
        split; simpl; auto. eapply update_pain_level_ok; eauto.
      * injection H as <- <-. split; simpl; auto.
  - (* reset *)
    injection H as <- <-. split; simpl; auto.
    + destruct Hp as [Hlevel Hhist Hlen].
      split; simpl; auto. unfold in_range. lia.
    + lia.
Qed.


Lemma ProstheMind_init_ok : state_ok ProstheMind_init.
Proof.
  split; simpl; auto.
  - apply PainFeedbackSystem_init_ok.
  - lia.
Qed.

Lemma reachable_ok s : reachable set_order s -> state_ok s.
Proof.
  induction 1 as [|s c s1 evs _ IH He].
  - apply ProstheMind_init_ok.
  - eapply exec_ok; eauto.
Qed.

Lemma run_reachable cs : forall s s1 evss,
  reachable set_order s -> run set_order s cs = Some (s1, evss) ->
  reachable set_order s1.
Proof.
  induction cs as [|c cs IH]; intros s s1 evss Hr H; simpl in H.
  - injection H as <- _. exact Hr.
  - destruct (exec set_order s c) as [[s' evs]|] eqn:E; [|discriminate].
    simpl in H.
    destruct (run set_order s' cs) as [[s2 rest]|] eqn:E2; [|discriminate].
    simpl in H. injection H as <- _.
    eapply IH; [|exact E2]. eapply reachable_exec; eauto.
Qed.

End CycleFacts.

(** ** Concrete runs *)

Lemma first_seen_order_ok : set_order_ok first_seen_order.
Proof.
  intros d. split.
  - apply NoDup_remove_dups.
  - intros x. apply elem_of_remove_dups.
Qed.

Lemma state_after_reachable cs : reachable first_seen_order (state_after cs).
Proof.
  unfold state_after.
  destruct (run first_seen_order ProstheMind_init cs) as [[s evss]|] eqn:E.
  - eapply run_reachable; [apply reachable_init | exact E].
  - apply reachable_init.
Qed.

(** ** C1: grip and pain stay within 0..100 *)




(** ** C2: relief-mode hysteresis *)

Lemma update_pain_level_relief p grip material is_gripping p' :
  update_pain_level p grip material is_gripping = Some p' ->
  relief_mode p' = relief_after (pain_level p') (relief_mode p).
Proof.
  unfold update_pain_level, calculate_pain_from_grip. intros H.
  destruct is_gripping.
  - destruct (Py.int_of_float (total_pain p grip material)); [|discriminate].
    simpl in H.
    destruct (match Py.deque_append _ _ _ with [] => _ | _ => _ end);
      [|discriminate].
    simpl in H. injection H as <-. reflexivity.
  - simpl in H.
    destruct (match Py.deque_append _ _ _ with [] => _ | _ => _ end);
      [|discriminate].
    simpl in H. injection H as <-. reflexivity.
Qed.

Lemma feed_pain_hysteretic calls : forall p trace,
  feed_pain p calls = Some trace -> hysteretic (relief_mode p) trace.
Proof.
  induction calls as [|[[grip material] is_gripping] calls IH];
    intros p trace H; simpl in H.
  - injection H as <-. exact I.
  - destruct (update_pain_level p grip material is_gripping) as [p1|] eqn:E;
      [|discriminate].
    simpl in H.
    destruct (feed_pain p1 calls) as [rest|] eqn:E2; [|discriminate].
    simpl in H. injection H as <-.
    pose proof (update_pain_level_relief _ _ _ _ _ E) as Hr.
    unfold relief_after in Hr. simpl.
    repeat split; try (apply IH; exact E2); intros Hl;
      destruct (Z.ltb_spec 75 (pain_level p1));
      destruct (Z.ltb_spec (pain_level p1) 40); auto; lia.
Qed.

Lemma hysteretic_band previous trace :
  hysteretic previous trace ->
  Forall (fun q => 40 <= pain_level q <= 75) trace ->
  Forall (fun q => relief_mode q = previous) trace.
Proof.
  revert previous. induction trace as [|q rest IH]; intros previous H Hb.
  - constructor.
  - destruct H as (_ & _ & Hkeep & Hrest).
    apply Forall_cons in Hb as [Hq Hb].
    specialize (Hkeep Hq). constructor; [exact Hkeep|].
    rewrite <- Hkeep. apply IH; assumption.
Qed.

Lemma hysteretic_latched trace :
  hysteretic true trace ->
  Forall (fun q => 40 <= pain_level q) trace ->
  Forall (fun q => relief_mode q = true) trace.
Proof.
  induction trace as [|q rest IH]; intros H Hb.
  - constructor.
  - destruct H as (Hhigh & _ & Hkeep & Hrest).
    apply Forall_cons in Hb as [Hq Hb].
    assert (Hon : relief_mode q = true).
    { destruct (Z.ltb_spec 75 (pain_level q)); [auto | apply Hkeep; lia]. }
    constructor; [exact Hon|]. apply IH; [|exact Hb].
    rewrite <- Hon. exact Hrest.
Qed.

Lemma hysteretic_split previous pre q post :
  hysteretic previous (pre ++ q :: post) ->
  (75 < pain_level q -> relief_mode q = true)
  /\ hysteretic (relief_mode q) post.
Proof.
  revert previous. induction pre as [|q' pre IH]; intros previous H.
  - destruct H as (Hhigh & _ & _ & Hrest). split; assumption.
  - destruct H as (_ & _ & _ & Hrest). exact (IH _ Hrest).
Qed.

(** C2. Along any sequence of pain-model updates, each update leaves relief
    mode on when the reported level is above 75, off when it is below 40,
    and as it was when the level is between 40 and 75; so while the levels
    stay within 40..75 the relief mode of the start persists, and after an
    update whose level is above 75 relief mode stays on for as long as the
    levels are at least 40. *)
Theorem relief_mode_hysteresis p calls trace :
  feed_pain p calls = Some trace ->
  hysteretic (relief_mode p) trace
  /\ (Forall (fun q => 40 <= pain_level q <= 75) trace ->
      Forall (fun q => relief_mode q = relief_mode p) trace)
  /\ (forall pre q post,
        trace = pre ++ q :: post ->
        75 < pain_level q ->
        Forall (fun r => 40 <= pain_level r) post ->
        Forall (fun r => relief_mode r = true) (q :: post)).
Proof.
  intros H. pose proof (feed_pain_hysteretic _ _ _ H) as Hh.
  split; [exact Hh|]. split.
  - apply hysteretic_band. exact Hh.
  - intros pre q post -> Hq Hpost.
    apply hysteretic_split in Hh as [Hhigh Hrest].
    specialize (Hhigh Hq). constructor; [exact Hhigh|].
    apply hysteretic_latched; [|exact Hpost].
    rewrite <- Hhigh. exact Hrest.
Qed.

Lemma metal_trace_fed :
  feed_pain PainFeedbackSystem_init (metal_grip 130) = Some (metal_trace 130).
Proof. vm_compute. reflexivity. Qed.

Lemma relief_mode_hysteresis_witness :
  hysteretic (relief_mode PainFeedbackSystem_init) (metal_trace 130)
  /\ (map relief_mode (metal_trace 130)
      = repeat false 62 ++ repeat true 68).
Proof.
  split; [|vm_compute; reflexivity].
  exact (proj1 (relief_mode_hysteresis _ _ _ metal_trace_fed)).
Defined.

(** ** C3 and C10: the label prior *)

Lemma wine_glass_entry : OBJECT_MATERIAL_MAP !! "wine glass"%string = Some "glass"%string.
Proof. vm_compute. reflexivity. Qed.

Lemma vase_entry : OBJECT_MATERIAL_MAP !! "vase"%string = Some "ceramic"%string.
Proof. vm_compute. reflexivity. Qed.

(** C3. For a region labelled "wine glass" the classifier returns glass with
    confidence 0.85, whatever the values of the features. *)
Theorem wine_glass_label_prior (f : Features) :
  classify_material (Some f) (Some "wine glass"%string)
  = (Some "glass"%string, 0.85%float).
Proof.
  unfold classify_material.
  change (Py.truthy (Some "wine glass"%string)) with true.
  rewrite wine_glass_entry. reflexivity.
Qed.

(** C10. For a region labelled "vase" with extracted features the classifier
    returns ceramic with confidence 0.85, not glass: the table's display
    writes the key "vase" twice, first with glass and later with ceramic,
    and the later item is the one the dictionary keeps. *)
Theorem vase_is_ceramic (f : Features) :
  classify_material (Some f) (Some "vase"%string)
  = (Some "ceramic"%string, 0.85%float)
  /\ OBJECT_MATERIAL_MAP_items !! 17%nat = Some ("vase"%string, "glass"%string)
  /\ OBJECT_MATERIAL_MAP_items !! 32%nat = Some ("vase"%string, "ceramic"%string)
  /\ OBJECT_MATERIAL_MAP !! "vase"%string = Some "ceramic"%string.
Proof.
  split; [|split; [reflexivity | split; [reflexivity | exact vase_entry]]].
  unfold classify_material.
  change (Py.truthy (Some "vase"%string)) with true.
  rewrite vase_entry. reflexivity.
Qed.

(** ** C4: decay to reset *)

Lemma decay_steps_to_floor_eq : decay_steps_to_floor = 18%nat.
Proof. vm_compute. reflexivity. Qed.

Lemma full_confidence_above_floor :
  forallb (fun k => negb (decayed k 1.0 <? 0.1)%float) (seq 1 17) = true.
Proof. vm_compute. reflexivity. Qed.

Lemma full_confidence_below_floor :
  (Py.max0 (decayed 17 1.0 - 0.05) <? 0.1)%float = true.
Proof. vm_compute. reflexivity. Qed.

Section Decay.
Variable set_order : list string -> list string.

Lemma run_app cs1 : forall cs2 s,
  run set_order s (cs1 ++ cs2)
  = '(s1, evs1) ← run set_order s cs1;
    '(s2, evs2) ← run set_order s1 cs2;
    Some (s2, evs1 ++ evs2).
Proof.
  induction cs1 as [|c cs1 IH]; intros cs2 s; simpl.
  - destruct (run set_order s cs2) as [[s2 evs2]|]; reflexivity.
  - destruct (exec set_order s c) as [[s' evs]|]; [|reflexivity]. simpl.
    rewrite IH.
    destruct (run set_order s' cs1) as [[s1 evs1]|]; [|reflexivity]. simpl.
    destruct (run set_order s1 cs2) as [[s2 evs2]|]; reflexivity.
Qed.

(** Above the floor a cycle without a box only lowers the confidence. *)
Lemma no_detection_above s :
  (Py.max0 (confidence s - 0.05) <? 0.1)%float = false ->
  no_detection s
  = Some (set_confidence (Py.max0 (confidence s - 0.05)%float) s, []).
Proof. intros H. unfold no_detection. rewrite H. reflexivity. Qed.

(** Below the floor it clears the material and tells the pain model that
    nothing is gripped. *)
Lemma no_detection_below s :
  state_ok s ->
  (Py.max0 (confidence s - 0.05) <? 0.1)%float = true ->
  exists s',
    no_detection s = Some (s', [PainUpdate 0 None false])
    /\ current_material s' = None
    /\ was_in_contact s' = false
    /\ update_pain_level (pain_system s) 0 None false = Some (pain_system s').
Proof.
  intros [Hp _ Hgh Hgl _] H. unfold no_detection. rewrite H.
  destruct (grip_mean_exact (grip_history s) 0 Hgh Hgl (or_introl eq_refl))
    as (Em & _).
  rewrite Em. simpl.
  destruct (update_pain_level_idle_total (pain_system s) 0 None Hp) as [pain Ep].
  rewrite Ep. simpl. eexists. repeat split; reflexivity.
Qed.

Lemma run_no_box_above (nows : list float) : forall s,
  (forall j, (1 <= j <= length nows)%nat ->
             (decayed j (confidence s) <? 0.1)%float = false) ->
  run set_order s (no_box nows)
  = Some (set_confidence (decayed (length nows) (confidence s)) s,
          repeat [] (length nows)).
Proof.
  induction nows as [|now nows IH]; intros s Habove; simpl.
  - destruct s; reflexivity.
  - rewrite no_detection_above by (apply (Habove 1%nat); simpl; lia).
    simpl. rewrite IH.
    + reflexivity.
    + intros j Hj. apply (Habove (S j)). simpl in *. lia.
Qed.

End Decay.

(** C4. From a reachable state whose confidence is 1.0, N consecutive cycles
    without a box, N being the number of decays by 0.05 after which the
    confidence is first below the floor 0.1 (N is 18 in binary64
    arithmetic), never raise and end with the current material cleared and
    the pain model told that nothing is gripped, in the last of these
    cycles; the shorter runs leave the material and the pain model as they
    were. *)
Theorem decay_to_reset set_order s nows :
  reachable set_order s ->
  confidence s = 1.0%float ->
  length nows = decay_steps_to_floor ->
  decay_steps_to_floor = 18%nat
  /\ (exists s',
        run set_order s (no_box nows)
        = Some (s', repeat [] 17 ++ [[PainUpdate 0 None false]])
        /\ current_material s' = None
        /\ was_in_contact s' = false
        /\ update_pain_level (pain_system s) 0 None false
           = Some (pain_system s'))
  /\ (forall k, (k < decay_steps_to_floor)%nat ->
        exists s',
          run set_order s (no_box (take k nows)) = Some (s', repeat [] k)
          /\ current_material s' = current_material s
          /\ pain_system s' = pain_system s).
Proof.
  intros Hr Hc Hlen. rewrite decay_steps_to_floor_eq in *.
  split; [reflexivity|].
  assert (Habove : forall j, (1 <= j <= 17)%nat ->
                     (decayed j (confidence s) <? 0.1)%float = false).
  { intros j Hj. rewrite Hc.
    pose proof (proj1 (forallb_forall _ _) full_confidence_above_floor j) as T.
    apply negb_true_iff, T, in_seq. lia. }
  assert (Hprefix : forall k, (k <= 17)%nat ->
            run set_order s (no_box (take k nows))
            = Some (set_confidence (decayed k (confidence s)) s, repeat [] k)).
  { intros k Hk.
    assert (Hl : length (take k nows) = k) by (rewrite length_take; lia).
    rewrite <- Hl at 2 3. apply run_no_box_above.
    intros j Hj. apply Habove. lia. }
  split.
  - rewrite <- (take_drop 17 nows). unfold no_box. rewrite map_app.
    rewrite run_app. fold (no_box (take 17 nows)).
    rewrite (Hprefix 17%nat) by lia.
    destruct (drop 17 nows) as [|now [|now' rest]] eqn:Ed;
      try (apply (f_equal length) in Ed; rewrite length_drop in Ed;
           simpl in Ed; lia).
    set (s17 := set_confidence (decayed 17 (confidence s)) s).
    assert (Hok : state_ok s17).
    { pose proof (reachable_ok _ _ Hr) as [Hp Hpm Hgh Hgl Hgm].
      split; assumption. }
    destruct (no_detection_below s17 Hok) as (s' & Hs' & Hm & Hw & Hu).
    { unfold s17. simpl. rewrite Hc. exact full_confidence_below_floor. }
    cbn [mbind option_bind run exec detection_cycle map].
    rewrite Hs'. simpl. exists s'. repeat split; assumption.
  - intros k Hk. rewrite (Hprefix k) by lia.
    eexists. repeat split; reflexivity.
Qed.

Lemma decay_to_reset_witness :
  confidence full_confidence_state = 1.0%float
  /\ current_material full_confidence_state = Some "stone"%string
  /\ exists s',
       run first_seen_order full_confidence_state (no_box (repeat 20%float 18))
       = Some (s', repeat [] 17 ++ [[PainUpdate 0 None false]])
       /\ current_material s' = None.
Proof.
  split; [vm_compute; reflexivity|].
  split; [vm_compute; reflexivity|].
  destruct (decay_to_reset first_seen_order full_confidence_state
              (repeat 20%float 18))
    as (_ & (s' & Hrun & Hm & _) & _).
  - apply state_after_reachable.
  - vm_compute. reflexivity.
  - vm_compute. reflexivity.
  - exists s'. split; assumption.
Defined.

(** ** C5: material smoothing *)

Lemma fold_max_spec {A : Type} (key : A -> Z) (rest : list A) : forall best,
  let r := fold_left (fun best y => if Z.gtb (key y) (key best) then y else best)
                     rest best in
  (r = best \/ r ∈ rest)
  /\ key best <= key r
  /\ forall x, x ∈ rest -> key x <= key r.
Proof.
  induction rest as [|y rest IH]; intros best; simpl.
  - split; [left; reflexivity|]. split; [lia|].
    intros x Hx. apply elem_of_nil in Hx. destruct Hx.
  - destruct (IH (if Z.gtb (key y) (key best) then y else best))
      as (Hin & Hbest & Hall).
    rewrite Z.gtb_ltb in *.
    destruct (Z.ltb_spec (key best) (key y)) as [Hlt|Hge].
    + split; [right; destruct Hin as [->|Hin]; [left | right; exact Hin]|].
      split; [lia|].
      intros x Hx. apply elem_of_cons in Hx as [->|Hx]; [exact Hbest | auto].
    + split; [destruct Hin as [->|Hin]; [left; reflexivity | right; right; exact Hin]|].
      split; [exact Hbest|].
      intros x Hx. apply elem_of_cons in Hx as [->|Hx]; [lia | auto].
Qed.

Lemma max_by_spec {A : Type} (key : A -> Z) (l : list A) :
  l <> [] ->
  exists m, Py.max_by Z.gtb key l = Some m
            /\ m ∈ l /\ forall x, x ∈ l -> key x <= key m.
Proof.
  destruct l as [|x rest]; [congruence|]. intros _. simpl.
  destruct (fold_max_spec key rest x) as (Hin & Hbest & Hall).
  eexists. split; [reflexivity|]. split.
  - destruct Hin as [->|Hin]; [left | right; exact Hin].
  - intros y Hy. apply elem_of_cons in Hy as [->|Hy]; auto.
Qed.

Lemma count_absent (d : list string) (x : string) : x ∉ d -> Py.count d x = 0.
Proof.
  unfold Py.count. induction d as [|y d IH]; intros Hx; [reflexivity|].
  rewrite filter_cons.
  destruct (decide (y = x)) as [->|Hne].
  - exfalso. apply Hx. left.
  - apply IH. intros Hin. apply Hx. right. exact Hin.
Qed.

Lemma count_nonneg (d : list string) (x : string) : 0 <= Py.count d x.
Proof. unfold Py.count. lia. Qed.

Lemma smoothing_passes_raw_until_full_counterexample :
  ~ passes_raw_until_full first_seen_order.
Proof.
  intros H.
  specialize (H ["fabric"; "fabric"; "fabric"; "fabric"]%string "metal"%string
                ["fabric"; "fabric"; "fabric"; "fabric"; "metal"]%string
                "fabric"%string).
  assert (E : "fabric"%string = "metal"%string).
  { apply H; [vm_compute; reflexivity | vm_compute; lia]. }
  discriminate E.
Qed.

(** C5, amended. The smoothing appends the raw material to the window of
    ten; while the window then holds fewer than five entries the raw
    material goes on unchanged, and from five entries on (so also once the
    window is full) what goes on is a most frequent entry of the window. *)
Theorem smoothing_mode_from_five set_order history raw :
  set_order_ok set_order ->
  let window := Py.deque_append material_history_maxlen raw history in
  exists out,
    smooth_material set_order history raw = Some (window, out)
    /\ ((length window < 5)%nat -> out = raw)
    /\ ((5 <= length window)%nat -> is_mode out window).
Proof.
  intros Hok window. unfold smooth_material. fold window.
  destruct (Nat.leb_spec 5 (length window)) as [Hfive|Hless].
  - destruct (Hok window) as [_ Hmem].
    assert (Hne : set_order window <> []).
    { intros E. assert (Hin : raw ∈ window).
      { unfold window, Py.deque_append.
        destruct (_ <=? _)%nat; apply elem_of_app; right; left. }
      apply Hmem in Hin. rewrite E in Hin. apply elem_of_nil in Hin. exact Hin. }
    destruct (max_by_spec (Py.count window) (set_order window) Hne)
      as (m & Em & Hin & Hmax).
    rewrite Em. simpl. exists m. split; [reflexivity|]. split; [lia|].
    intros _. split; [apply Hmem; exact Hin|].
    intros x. destruct (decide (x ∈ window)) as [Hx|Hx].
    + apply Hmax, Hmem, Hx.
    + rewrite (count_absent _ _ Hx). apply count_nonneg.
  - exists raw. split; [reflexivity|]. split; [reflexivity | lia].
Qed.

Lemma smoothing_mode_from_five_witness :
  exists out,
    smooth_material first_seen_order
      ["glass"; "metal"; "glass"; "metal"]%string "glass"%string
    = Some (["glass"; "metal"; "glass"; "metal"; "glass"]%string, out)
    /\ is_mode out ["glass"; "metal"; "glass"; "metal"; "glass"]%string.
Proof.
  destruct (smoothing_mode_from_five first_seen_order
              ["glass"; "metal"; "glass"; "metal"]%string "glass"%string
              first_seen_order_ok)
    as (out & Hs & _ & Hmode).
  exists out. split; [exact Hs|]. apply Hmode. vm_compute. lia.
Defined.

(** ** C6: when the pain model is updated *)

Lemma pain_update_every_cycle_counterexample :
  pain_level (pain_system glass_contact) = 61
  /\ exists s',
       detection_cycle first_seen_order glass_contact 11 NoDetection
       = Some (s', [])
       /\ current_material s' = Some "glass"%string
       /\ pain_system s' = pain_system glass_contact
       /\ pain_history (pain_system s') = [61]
       /\ strain_accumulation (pain_system s') = 0.425%float.
Proof.
  split; [vm_compute; reflexivity|].
  eexists. split; [vm_compute; reflexivity|].
  repeat split; vm_compute; reflexivity.
Qed.

Lemma idle_update_decays p p' :
  pain_ok p -> update_pain_level p 0 None false = Some p' -> idle_decay p p'.
Proof.
  intros Hok H.
  destruct (update_pain_level_spec _ _ _ _ _ Hok H)
    as (new_pain & _ & Hnew & _ & Hh & Hl & Hr & Hs).
  rewrite (Hnew eq_refl) in Hh. repeat split; assumption.
Qed.

(** C6, amended. A detection cycle updates the pain model when it has an
    accepted grip (as gripping), and without an accepted grip only when the
    decayed confidence is below the floor: 0.1 after a decay of 0.05 when
    there is no box, 0.2 after a decay of 0.03 when the box's classification
    is not accepted.  Above the floor the cycle leaves the pain model
    unchanged.  The not-gripping update appends max(0, level - 2) to the
    pain history, takes the mean of the history as the level, and lowers
    strain by 0.5, not below 0. *)
Theorem pain_update_per_cycle set_order s now obs s' evs :
  reachable set_order s ->
  detection_cycle set_order s now obs = Some (s', evs) ->
  match obs with
  | Detected obj features =>
      match accepted (classify_material features (Some obj)) with
      | Some _ =>
          exists material,
            pain_updates evs
            = [PainUpdate (current_grip s') (Some material) true]
            /\ update_pain_level (pain_system s) (current_grip s')
                                 (Some material) true
               = Some (pain_system s')
      | None => without_grip 0.03 0.2 s s' evs
      end
  | NoDetection => without_grip 0.05 0.1 s s' evs
  end.
Proof.
  intros Hr H. pose proof (reachable_ok _ _ Hr) as [Hp _ Hgh Hgl _].
  destruct obs as [|obj features]; simpl in H.
  - unfold without_grip, no_detection in *.
    destruct (_ <? _)%float.
    + destruct (grip_mean_exact (grip_history s) 0 Hgh Hgl (or_introl eq_refl))
        as (Em & _).
      rewrite Em in H. simpl in H.
      destruct (update_pain_level _ _ _ _) as [pain|] eqn:Ep; [|discriminate].
      simpl in H. injection H as <- <-. simpl.
      split; [reflexivity | apply idle_update_decays; assumption].
    + injection H as <- <-. split; reflexivity.
  - destruct (accepted _) as [[material conf]|].
    + destruct (accepted_grip_spec _ _ _ _ _ _ _ _ H)
        as (history & m & info & grip & pain & _ & _ & _ & Ep
            & Hps & _ & Hg & _ & _ & _ & _ & _ & Hev).
      exists m. rewrite Hg, Hps. split; assumption.
    + unfold without_grip, weak_detection in *.
      destruct (_ <? _)%float.
      * destruct (update_pain_level _ _ _ _) as [pain|] eqn:Ep; [|discriminate].
        simpl in H. injection H as <- <-. simpl.
        split; [reflexivity | apply idle_update_decays; assumption].
      * injection H as <- <-. split; reflexivity.
Qed.

Lemma pain_update_per_cycle_witness :
  pain_level (pain_system glass_lost) = 61
  /\ pain_history (pain_system glass_lost_next) = [61; 59]
  /\ pain_level (pain_system glass_lost_next) = 60
  /\ without_grip 0.05 0.1 glass_lost glass_lost_next [PainUpdate 0 None false].
Proof.
  split; [vm_compute; reflexivity|].
  split; [vm_compute; reflexivity|].
  split; [vm_compute; reflexivity|].
  apply (pain_update_per_cycle first_seen_order glass_lost 11 NoDetection).
  - apply state_after_reachable.
  - vm_compute. reflexivity.
Defined.

(** ** C7: strain accumulation under a held grip *)

Lemma strain_scenario_30_counterexample :
  (exists p,
     held 90 metal 30 = Some p
     /\ strain_accumulation p = 13.499999999999993%float
     /\ pain_level p = 61
     /\ relief_mode p = false)
  /\ forallb early_check (seq 0 31) = true.
Proof.
  split; [|vm_compute; reflexivity].
  eexists. split; [vm_compute; reflexivity|].
  repeat split; vm_compute; reflexivity.
Qed.

Lemma scenario_table : forallb scenario_check (seq 0 112) = true.
Proof. vm_compute. reflexivity. Qed.

Lemma mean_lower_bound (lo : Z) (l : list Z) :
  l <> [] -> Forall (fun x => lo <= x) l -> lo <= mean_int l.
Proof.
  intros Hne Hall. unfold mean_int.
  assert (Hsum : lo * Z.of_nat (length l) <= Py.sum_int l).
  { induction Hall as [|x l Hx _ IH]; simpl; [lia|].
    destruct l as [|y l'].
    - simpl. lia.
    - specialize (IH ltac:(discriminate)). simpl in *. lia. }
  apply Z.div_le_lower_bound.
  - destruct l; [congruence | simpl; lia].
  - lia.
Qed.

(** A gripping update raises only when [int(total_pain)] does. *)
Lemma update_pain_level_grip_total p grip material n :
  pain_ok p ->
  Py.int_of_float (total_pain p grip material) = Some n ->
  exists p', update_pain_level p grip material true = Some p'.
Proof.
  intros [Hlevel Hhist Hlen] Hn.
  unfold update_pain_level, calculate_pain_from_grip. rewrite Hn. simpl.
  set (history := Py.deque_append pain_history_maxlen _ (pain_history p)).
  assert (Hne : history <> []) by apply deque_append_nonempty.
  assert (Hall : Forall in_range history).
  { apply deque_append_Forall; [exact Hhist|]. unfold in_range. lia. }
  assert (Hl : (length history <= 20)%nat)
    by (apply deque_append_length; [unfold pain_history_maxlen; lia | exact Hlen]).
  destruct history as [|h0 hs] eqn:Eh; [congruence|].
  rewrite (np_mean_exact (h0 :: hs) Hne Hl Hall). simpl. eauto.
Qed.

Lemma saturated_step p :
  saturated p ->
  exists p', update_pain_level p 90 metal true = Some p' /\ saturated p'.
Proof.
  intros [Hs Hr Hok Hh].
  assert (Ht : total_pain p 90 metal = 61.5%float).
  { unfold total_pain, strain_after_grip. rewrite Hs, Hr.
    vm_compute. reflexivity. }
  assert (Hn : Py.int_of_float (total_pain p 90 metal) = Some 61)
    by (rewrite Ht; vm_compute; reflexivity).
  destruct (update_pain_level_grip_total p 90 metal 61 Hok Hn) as [p' Hp'].
  exists p'. split; [exact Hp'|].
  destruct (update_pain_level_spec _ _ _ _ _ Hok Hp')
    as (new_pain & _ & _ & Hnew & Hhist & Hlevel & Hrelief & Hstrain).
  destruct (Hnew eq_refl) as (n & Hn' & ->).
  rewrite Hn in Hn'. injection Hn' as <-.
  assert (Hall : Forall (fun x => 40 <= x) (pain_history p')).
  { rewrite Hhist. apply deque_append_Forall; [exact Hh | lia]. }
  split.
  - rewrite Hstrain. unfold strain_after_grip. rewrite Hs.
    vm_compute. reflexivity.
  - rewrite Hrelief, Hr. unfold relief_after.
    assert (40 <= pain_level p').
    { rewrite Hlevel. apply mean_lower_bound; [|exact Hall].
      rewrite Hhist. apply deque_append_nonempty. }
    destruct (Z.ltb_spec 75 (pain_level p')); [reflexivity|].
    destruct (Z.ltb_spec (pain_level p') 40); [lia | reflexivity].
  - eapply update_pain_level_ok; eauto.
  - exact Hall.
Qed.

Lemma update_pain_level_strain p grip material p' :
  update_pain_level p grip material true = Some p' ->
  strain_accumulation p' = strain_after_grip p grip.
Proof.
  unfold update_pain_level, calculate_pain_from_grip. intros H.
  destruct (Py.int_of_float (total_pain p grip material)); [|discriminate].
  simpl in H.
  destruct (match Py.deque_append _ _ _ with [] => _ | _ => _ end);
    [|discriminate].
  simpl in H. injection H as <-. reflexivity.
Qed.

Lemma grip_90_strain_step :
  (Py.float_of_int 90 / 100 * 0.5)%float = 0.45%float.
Proof. vm_compute. reflexivity. Qed.

Lemma held_saturated (extra : nat) :
  exists p, held 90 metal (112 + extra) = Some p /\ saturated p.
Proof.
  induction extra as [|extra (p & Hp & Hsat)].
  - eexists. split; [vm_compute; reflexivity|].
    split; simpl.
    + reflexivity.
    + reflexivity.
    + split; simpl; [unfold in_range; lia | | lia].
      repeat constructor; unfold in_range; lia.
    + repeat constructor; lia.
  - destruct (saturated_step p Hsat) as (p' & Hp' & Hsat').
    exists p'. split; [|exact Hsat'].
    replace (112 + S extra)%nat with (S (112 + extra)) by lia.
    change (held 90 metal (S (112 + extra)))
      with (p0 ← held 90 metal (112 + extra);
            update_pain_level p0 90 metal true).
    rewrite Hp. exact Hp'.
Qed.

(** C7, amended. With metal held at grip 90, each update raises strain by
    (90/100) x 0.5 = 0.45, capped at 50, and from start-up every cycle
    succeeds.  During the first 30 cycles strain stays under 14, the
    reported level is at most 61 and relief mode is off.  The reported level
    is at most 75 before cycle 63, is 76 at cycle 63, and relief mode is on
    from cycle 63 on for ever.  Strain is below 50 before cycle 112 and
    exactly 50 from cycle 112 on. *)
Theorem strain_scenario (cycles : nat) :
  (forall p p',
     update_pain_level p 90 metal true = Some p' ->
     strain_accumulation p'
     = Py.min_with (strain_accumulation p + 0.45)%float 50%float)
  /\ exists p,
    held 90 metal cycles = Some p
    /\ ((cycles <= 30)%nat ->
        (strain_accumulation p <? 14)%float = true
        /\ pain_level p <= 61 /\ relief_mode p = false)
    /\ ((cycles < 63)%nat -> pain_level p <= 75 /\ relief_mode p = false)
    /\ (cycles = 63%nat -> pain_level p = 76)
    /\ ((63 <= cycles)%nat -> relief_mode p = true)
    /\ ((cycles < 112)%nat -> (strain_accumulation p <? 50)%float = true)
    /\ ((112 <= cycles)%nat -> strain_accumulation p = 50%float).
Proof.
  split.
  { intros p p' H. rewrite (update_pain_level_strain _ _ _ _ H).
    unfold strain_after_grip. rewrite grip_90_strain_step. reflexivity. }
  destruct (Nat.lt_ge_cases cycles 112) as [Hlt|Hge].
  - assert (Hin : In cycles (seq 0 112)) by (apply in_seq; lia).
    pose proof (proj1 (forallb_forall _ _) scenario_table _ Hin) as T.
    unfold scenario_check in T.
    destruct (held 90 metal cycles) as [p|]; [|discriminate].
    exists p. split; [reflexivity|].
    repeat rewrite andb_true_iff in T.
    destruct T as ((((T1 & T2) & T3) & T4) & T5).
    refine (conj _ (conj _ (conj _ (conj _ (conj _ _))))); intros Hc.
    + destruct (Nat.leb_spec cycles 30); [|lia]. simpl in T1.
      repeat rewrite andb_true_iff in T1. destruct T1 as ((A & B) & C).
      split; [exact A|]. split; [lia|].
      destruct (relief_mode p); [discriminate C | reflexivity].
    + destruct (Nat.ltb_spec cycles 63); [|lia]. simpl in T2.
      rewrite andb_true_iff in T2. destruct T2 as (A & B).
      split; [lia|].
      destruct (relief_mode p); [discriminate B | reflexivity].
    + subst cycles. simpl in T3. lia.
    + destruct (Nat.leb_spec 63 cycles); [|lia]. exact T4.
    + destruct (Nat.ltb_spec cycles 112); [|lia]. exact T5.
    + lia.
  - destruct (held_saturated (cycles - 112)) as (p & Hp & [Hs Hr _ _]).
    replace (112 + (cycles - 112))%nat with cycles in Hp by lia.
    exists p. split; [exact Hp|].
    refine (conj _ (conj _ (conj _ (conj _ (conj _ _))))); intros Hc;
      try lia; assumption.
Qed.

(** ** C8: the reset key *)

(** C8. The reset key clears the material, the object, the grip, the
    confidence, the grip and material histories, the pain level and the
    strain; it leaves the pain history, the relief-mode flag and the
    contact flag as they were.  After fifty cycles of contact with a wine
    glass and a reset, the pain history still holds its twenty samples,
    relief mode is still on and the contact flag is still set, where
    start-up has an empty history and both flags off; the next accepted grip
    (a knife) then reports pain level 69 and raises a pain alert, where
    the same grip after start-up reports 31 and raises none. *)
Theorem reset_keeps_pain_history_and_flags :
  (forall s,
     current_material (reset s) = current_material ProstheMind_init
     /\ current_object (reset s) = current_object ProstheMind_init
     /\ current_grip (reset s) = current_grip ProstheMind_init
     /\ confidence (reset s) = confidence ProstheMind_init
     /\ grip_history (reset s) = grip_history ProstheMind_init
     /\ material_history (reset s) = material_history ProstheMind_init
     /\ pain_level (pain_system (reset s))
        = pain_level (pain_system ProstheMind_init)
     /\ strain_accumulation (pain_system (reset s))
        = strain_accumulation (pain_system ProstheMind_init)
     /\ pain_history (pain_system (reset s)) = pain_history (pain_system s)
     /\ relief_mode (pain_system (reset s)) = relief_mode (pain_system s)
     /\ was_in_contact (reset s) = was_in_contact s)
  /\ reachable first_seen_order (reset glass_relief)
  /\ pain_history (pain_system (reset glass_relief))
     = [73; 74; 74; 75; 75; 76; 76; 76; 77; 77;
        78; 78; 79; 79; 79; 80; 80; 48; 48; 49]
  /\ pain_history (pain_system ProstheMind_init) = []
  /\ relief_mode (pain_system (reset glass_relief)) = true
  /\ relief_mode (pain_system ProstheMind_init) = false
  /\ was_in_contact (reset glass_relief) = true
  /\ was_in_contact ProstheMind_init = false
  /\ (exists s',
        exec first_seen_order (reset glass_relief) (see 60 "knife")
        = Some (s', [PainUpdate 70 (Some "metal"%string) true;
                     PainAlert 69 [Beep 600 0.15 0.5]])
        /\ pain_level (pain_system s') = 69)
  /\ (exists s',
        exec first_seen_order ProstheMind_init (see 60 "knife")
        = Some (s', [ContactFeedback "metal" 70;
                     PainUpdate 70 (Some "metal"%string) true])
        /\ pain_level (pain_system s') = 31).
Proof.
  split; [intros s; repeat split|].
  split.
  { eapply reachable_exec with (c := Reset);
      [apply state_after_reachable | reflexivity]. }
  repeat split; try (vm_compute; reflexivity);
    eexists; (split; [vm_compute; reflexivity|]); vm_compute; reflexivity.
Qed.

(** ** C9: pain alerts *)

Lemma pain_alert_at_50_counterexample :
  pain_level (pain_system glass_after_knife) = 50
  /\ (3.0 <? 60 - last_pain_alert glass_after_knife)%float = true
  /\ exists s',
       detection_cycle first_seen_order glass_after_knife 60
         (Detected "wine glass" (Some rough_features))
       = Some (s', [PainUpdate 82 (Some "glass"%string) true])
       /\ pain_level (pain_system s') = 51
       /\ pain_alert (pain_level (pain_system s')) = [Beep 600 0.15 0.5].
Proof.
  split; [vm_compute; reflexivity|].
  split; [vm_compute; reflexivity|].
  eexists. split; [vm_compute; reflexivity|].
  split; vm_compute; reflexivity.
Qed.

(** C9, amended. A detection cycle calls the pain alert exactly when it has
    an accepted grip, the reported pain level after its update is above 60,
    and more than 3.0 seconds have passed since the last pain alert.  The
    alert has two tiers: above 70 a beep at 800 Hz followed by a delayed
    pulse at 900 Hz, otherwise (a level above 50 and at most 70, of which
    the cycle only lets through the levels above 60) a single beep at
    600 Hz. *)
Theorem pain_alert_gate set_order s now obs s' evs :
  detection_cycle set_order s now obs = Some (s', evs) ->
  pain_alerts evs
  = (if has_accepted_grip obs
        && (60 <? pain_level (pain_system s'))
        && (3.0 <? now - last_pain_alert s)%float
     then [PainAlert (pain_level (pain_system s'))
                     (pain_alert (pain_level (pain_system s')))]
     else [])
  /\ (forall level,
        (70 < level ->
         pain_alert level = [Beep 800 0.2 0.7; DelayedBeep 0.12 900 0.15 0.6])
        /\ (50 < level <= 70 -> pain_alert level = [Beep 600 0.15 0.5])
        /\ (level <= 50 -> pain_alert level = [])).
Proof.
  intros H. split.
  - destruct obs as [|obj features]; simpl in *.
    + unfold no_detection in H.
      destruct (_ <? _)%float.
      * destruct (Py.int_of_float _); [|discriminate]. simpl in H.
        destruct (update_pain_level _ _ _ _); [|discriminate].
        simpl in H. injection H as <- <-. reflexivity.
      * injection H as <- <-. reflexivity.
    + destruct (accepted _) as [[material conf]|].
      * destruct (accepted_grip_spec _ _ _ _ _ _ _ _ H)
          as (history & m & info & grip & pain & _ & _ & _ & _
              & Hps & _ & _ & _ & _ & _ & _ & Hal & _).
        rewrite Hps. exact Hal.
      * unfold weak_detection in H.
        destruct (_ <? _)%float.
        -- destruct (update_pain_level _ _ _ _); [|discriminate].
           simpl in H. injection H as <- <-. reflexivity.
        -- injection H as <- <-. reflexivity.
  - intros level. unfold pain_alert.
    destruct (Z.ltb_spec 70 level); destruct (Z.ltb_spec 50 level);
      repeat split; intros; try reflexivity; lia.
Qed.

Lemma pain_alert_gate_witness :
  exists s' evs,
    detection_cycle first_seen_order ProstheMind_init 10
      (Detected "wine glass" (Some rough_features)) = Some (s', evs)
    /\ pain_level (pain_system s') = 61
    /\ pain_alerts evs = [PainAlert 61 [Beep 600 0.15 0.5]].
Proof.
  eexists. eexists.
  split; [vm_compute; reflexivity|].
  split; [vm_compute; reflexivity|].
  refine (eq_trans
            (proj1 (pain_alert_gate first_seen_order ProstheMind_init 10
                      (Detected "wine glass" (Some rough_features)) _ _ _))
            _).
  - vm_compute. reflexivity.
  - vm_compute. reflexivity.
Defined.


(** * Further properties *)

(** ** Order of binary64 numbers *)

Lemma SFltb_trans (a b c : spec_float) :
  SFltb a b = true -> SFltb b c = true -> SFltb a c = true.
Proof.
  unfold SFltb, SFcompare.
  destruct a as [sa|sa| |sa ma ea], b as [sb|sb| |sb mb eb],
           c as [sc|sc| |sc mc ec];
    try destruct sa; try destruct sb; try destruct sc;
    try discriminate; try reflexivity; intros H1 H2;
    destruct (Z.compare_spec ea eb), (Z.compare_spec eb ec),
      (Z.compare_spec ea ec);
    try lia; try discriminate; try reflexivity; subst;
    fold (Pos.compare ma mb) in *; fold (Pos.compare mb mc) in *;
    fold (Pos.compare ma mc) in *;
    destruct (Pos.compare_spec ma mb), (Pos.compare_spec mb mc),
      (Pos.compare_spec ma mc);
    simpl in *; try lia; try discriminate; try reflexivity.
Qed.

Lemma SFltb_irrefl (a : spec_float) : SFltb a a = false.
Proof.
  unfold SFltb, SFcompare.
  destruct a as [s|s| |s m e]; try destruct s; try reflexivity;
    rewrite Z.compare_refl; fold (Pos.compare m m);
    rewrite Pos.compare_refl; reflexivity.
Qed.

Lemma ltb_trans (a b c : float) :
  (a <? b)%float = true -> (b <? c)%float = true -> (a <? c)%float = true.
Proof. rewrite !ltb_spec. apply SFltb_trans. Qed.

Lemma ltb_irrefl (a : float) : (a <? a)%float = false.
Proof. rewrite ltb_spec. apply SFltb_irrefl. Qed.

Lemma ltb_asym (a b : float) :
  (a <? b)%float = true -> (b <? a)%float = false.
Proof.
  intros H. destruct (b <? a)%float eqn:E; [|reflexivity].
  pose proof (ltb_trans _ _ _ H E) as C. rewrite ltb_irrefl in C.
  discriminate C.
Qed.

(** Below [lo], hence below any [hi] above [lo]. *)
Lemma ltb_not_below (x lo hi : float) :
  (lo <? hi)%float = true -> (x <? hi)%float = false ->
  (x <? lo)%float = false.
Proof.
  intros Hlh Hx. destruct (x <? lo)%float eqn:E; [|reflexivity].
  rewrite (ltb_trans _ _ _ E Hlh) in Hx. discriminate Hx.
Qed.

(** [min(x, bound)] is not above the bound. *)
Lemma min_with_capped (x bound : float) :
  (bound <? Py.min_with x bound)%float = false.
Proof.
  unfold Py.min_with. destruct (bound <? x)%float eqn:E.
  - apply ltb_irrefl.
  - exact E.
Qed.

(** ** The classifier *)

Lemma max_by_elem {A K : Type} (gt : K -> K -> bool) (key : A -> K)
    (l : list A) (m : A) :
  Py.max_by gt key l = Some m -> m ∈ l.
Proof.
  destruct l as [|x rest]; [discriminate|]. simpl. intros H.
  injection H as <-.
  assert (G : forall best,
             fold_left (fun best y => if gt (key y) (key best) then y else best)
                       rest best = best
             \/ fold_left (fun best y => if gt (key y) (key best) then y else best)
                          rest best ∈ rest).
  { induction rest as [|y rest IH]; intros best; simpl; [left; reflexivity|].
    destruct (IH (if gt (key y) (key best) then y else best)) as [E|Hin].
    - rewrite E. destruct (gt (key y) (key best)); [right; left | left; reflexivity].
    - right. right. exact Hin. }
  destruct (G x) as [->|Hin]; [left | right; exact Hin].
Qed.

Lemma material_names_in_database (m : string) :
  m ∈ ["fabric"; "metal"; "glass"; "wood"; "plastic"; "paper"; "ceramic";
       "stone"]%string ->
  is_Some (MATERIAL_DATABASE !! m).
Proof.
  intros H.
  repeat (apply elem_of_cons in H as [->|H];
          [eexists; vm_compute; reflexivity|]).
  apply elem_of_nil in H. destruct H.
Qed.

Lemma OBJECT_MATERIAL_MAP_in_database obj m :
  OBJECT_MATERIAL_MAP !! obj = Some m -> is_Some (MATERIAL_DATABASE !! m).
Proof.
  intros H. apply dict_display_lookup in H.
  apply material_names_in_database.
  unfold OBJECT_MATERIAL_MAP_items in H.
  repeat (apply elem_of_cons in H as [H|H];
          [injection H as _ ->; set_solver|]).
  apply elem_of_nil in H. destruct H.
Qed.

Lemma classify_by_scores_spec (f : Features) :
  exists best score,
    (best, score) ∈ scores f
    /\ Py.max_by (fun a b => (b <? a)%float) snd (scores f) = Some (best, score)
    /\ classify_by_scores f
       = (Some best,
          Py.min_with
            (if (0 <? fold_left (fun acc kv => (acc + snd kv)%float) (scores f) 0)%float
             then (score / fold_left (fun acc kv => (acc + snd kv)%float) (scores f) 0)%float
             else 0.0%float)
            1.0%float).
Proof.
  unfold classify_by_scores.
  destruct (Py.max_by _ snd (scores f)) as [[best score]|] eqn:E.
  - exists best, score. split; [|split; reflexivity].
    eapply max_by_elem. exact E.
  - discriminate E.
Qed.

Lemma classify_by_scores_in_database (f : Features) :
  exists best conf,
    classify_by_scores f = (Some best, conf)
    /\ is_Some (MATERIAL_DATABASE !! best)
    /\ (1 <? conf)%float = false.
Proof.
  destruct (classify_by_scores_spec f) as (best & score & Hin & _ & ->).
  eexists. eexists. split; [reflexivity|]. split.
  - apply material_names_in_database.
    unfold scores in Hin.
    repeat (apply elem_of_cons in Hin as [Hin|Hin];
            [injection Hin as -> _; set_solver|]).
    apply elem_of_nil in Hin. destruct Hin.
  - apply min_with_capped.
Qed.

Lemma classify_material_in_database_aux features detected_object :
  match classify_material features detected_object with
  | (Some m, _) => is_Some (MATERIAL_DATABASE !! m)
  | (None, _) => True
  end.
Proof.
  unfold classify_material.
  destruct features as [f|]; [|exact I].
  destruct (classify_by_scores_in_database f) as (best & conf & E & Hdb & _).
  assert (Hs : match classify_by_scores f with
               | (Some m, _) => is_Some (MATERIAL_DATABASE !! m)
               | (None, _) => True
               end) by (rewrite E; exact Hdb).
  destruct detected_object as [obj|]; [|exact Hs].
  destruct (Py.truthy (Some obj)); [|exact Hs].
  destruct (OBJECT_MATERIAL_MAP !! obj) as [m|] eqn:Em; [|exact Hs].
  eapply OBJECT_MATERIAL_MAP_in_database. exact Em.
Qed.

(** X1. The classifier returns no material, with confidence 0.0, exactly
    when it is given no features; otherwise, in both of its modes, it returns
    a key of the material table with a confidence that is not above 1.0. *)
Theorem classify_material_in_database features detected_object :
  match classify_material features detected_object with
  | (Some m, conf) =>
      features <> None
      /\ is_Some (MATERIAL_DATABASE !! m)
      /\ (1 <? conf)%float = false
  | (None, conf) => features = None /\ conf = 0.0%float
  end.
Proof.
  unfold classify_material.
  destruct features as [f|]; [|split; reflexivity].
  destruct (classify_by_scores_in_database f) as (best & conf & E & Hdb & Hc).
  assert (Hs : match classify_by_scores f with
               | (Some m, conf) =>
                   Some f <> None /\ is_Some (MATERIAL_DATABASE !! m)
                   /\ (1 <? conf)%float = false
               | (None, conf) => Some f = None /\ conf = 0.0%float
               end) by (rewrite E; repeat split; auto; discriminate).
  destruct detected_object as [obj|]; [|exact Hs].
  destruct (Py.truthy (Some obj)); [|exact Hs].
  destruct (OBJECT_MATERIAL_MAP !! obj) as [m|] eqn:Em; [|exact Hs].
  split; [discriminate|]. split.
  - eapply OBJECT_MATERIAL_MAP_in_database. exact Em.
  - vm_compute. reflexivity.
Qed.

(** The winner of [max(..., key=...)] over float keys is not exceeded. *)
Lemma max_by_float_maximal {A : Type} (key : A -> float) (l : list A) (m : A) :
  Py.max_by (fun a b => (b <? a)%float) key l = Some m ->
  forall x, x ∈ l -> (key m <? key x)%float = false.
Proof.
  destruct l as [|x0 rest]; [discriminate|]. simpl. intros H.
  injection H as <-.
  assert (G : forall seen best,
             (forall x, x ∈ seen -> (key best <? key x)%float = false) ->
             forall x, x ∈ seen ++ rest ->
               (key (fold_left (fun best y =>
                                  if (key best <? key y)%float then y else best)
                               rest best)
                <? key x)%float = false).
  { clear x0. induction rest as [|y rest IH]; intros seen best Hseen x Hx; simpl.
    - rewrite app_nil_r in Hx. auto.
    - apply (IH (seen ++ [y])).
      + intros z Hz. apply elem_of_app in Hz as [Hz|Hz].
        * destruct (key best <? key y)%float eqn:E; [|auto].
          destruct (key y <? key z)%float eqn:E2; [|reflexivity].
          pose proof (Hseen z Hz) as Hb.
          rewrite (ltb_trans _ _ _ E E2) in Hb. discriminate Hb.
        * apply list_elem_of_singleton in Hz as ->.
          destruct (key best <? key y)%float eqn:E; [apply ltb_irrefl | exact E].
      + rewrite <- app_assoc. exact Hx. }
  intros x Hx. apply (G [x0] x0).
  - intros z Hz. apply list_elem_of_singleton in Hz as ->. apply ltb_irrefl.
  - exact Hx.
Qed.

(** X2. Without a usable label (no label, an empty one, or one that is not
    in the object table) the classifier falls back to the scores: it returns
    a category whose score no category's score exceeds, with the share of
    that score in the total as confidence, capped at 1.0, and 0.0 when the
    total is not positive. *)
Theorem classify_material_fallback (f : Features) detected_object :
  match detected_object with
  | Some obj => Py.truthy (Some obj) = false
                \/ OBJECT_MATERIAL_MAP !! obj = None
  | None => True
  end ->
  exists best score,
    (best, score) ∈ scores f
    /\ (forall m sc, (m, sc) ∈ scores f -> (score <? sc)%float = false)
    /\ classify_material (Some f) detected_object
       = (Some best,
          Py.min_with
            (if (0 <? fold_left (fun acc kv => (acc + snd kv)%float) (scores f) 0)%float
             then (score / fold_left (fun acc kv => (acc + snd kv)%float) (scores f) 0)%float
             else 0.0%float)
            1.0%float).
Proof.
  intros Hlabel.
  destruct (classify_by_scores_spec f) as (best & score & Hin & Hmax & E).
  exists best, score. split; [exact Hin|]. split.
  - intros m sc Hm.
    exact (max_by_float_maximal snd (scores f) (best, score) Hmax (m, sc) Hm).
  - unfold classify_material.
    destruct detected_object as [obj|]; [|exact E].
    destruct Hlabel as [Ht|Hn].
    + rewrite Ht. exact E.
    + destruct (Py.truthy (Some obj)); [rewrite Hn|]; exact E.
Qed.

Lemma classify_material_fallback_witness :
  exists best score,
    (best, score) ∈ scores rough_features
    /\ classify_material (Some rough_features) (Some "person"%string)
       = (Some best, 1.0%float)
    /\ best = "stone"%string.
Proof.
  destruct (classify_material_fallback rough_features (Some "person"%string))
    as (best & score & Hin & _ & E).
  - right. vm_compute. reflexivity.
  - exists best, score. split; [exact Hin|].
    assert (E2 : classify_material (Some rough_features) (Some "person"%string)
                 = (Some "stone"%string, 1.0%float)) by (vm_compute; reflexivity).
    rewrite E2 in E. injection E as <- _. split; reflexivity.
Defined.

(** ** Invariants of the session state *)

Lemma accepted_inv c m conf :
  accepted c = Some (m, conf) ->
  c = (Some m, conf) /\ (0.4 <? conf)%float = true.
Proof.
  unfold accepted. destruct c as [[m'|] conf']; [|discriminate].
  destruct (Py.truthy (Some m')); [|discriminate]. simpl.
  destruct (0.4 <? conf')%float eqn:E; [|discriminate].
  intros H. injection H as -> ->. split; [reflexivity | exact E].
Qed.

Lemma accepted_in_database features obj m conf :
  accepted (classify_material features obj) = Some (m, conf) ->
  is_Some (MATERIAL_DATABASE !! m) /\ (conf <? 0.1)%float = false.
Proof.
  intros H. apply accepted_inv in H as [E Hc].
  pose proof (classify_material_in_database_aux features obj) as Hdb.
  rewrite E in Hdb. split; [exact Hdb|].
  apply (ltb_not_below conf 0.1 0.4); [vm_compute; reflexivity|].
  apply ltb_asym. exact Hc.
Qed.

Section SessionFacts.
Variable set_order : list string -> list string.

Lemma smooth_material_history history raw history' m :
  smooth_material set_order history raw = Some (history', m) ->
  history' = Py.deque_append material_history_maxlen raw history.
Proof.
  unfold smooth_material. destruct (5 <=? _)%nat.
  - destruct (Py.max_by _ _ _); [|discriminate]. simpl.
    intros H. injection H as <- _. reflexivity.
  - intros H. injection H as <- _. reflexivity.
Qed.

Lemma smooth_material_total history raw :
  set_order_ok set_order ->
  exists m,
    smooth_material set_order history raw
    = Some (Py.deque_append material_history_maxlen raw history, m)
    /\ m ∈ Py.deque_append material_history_maxlen raw history.
Proof.
  intros Hok. unfold smooth_material.
  set (window := Py.deque_append material_history_maxlen raw history).
  assert (Hraw : raw ∈ window).
  { unfold window, Py.deque_append.
    destruct (_ <=? _)%nat; apply elem_of_app; right; left. }
  destruct (5 <=? length window)%nat.
  - destruct (Hok window) as [_ Hmem].
    assert (Hne : set_order window <> []).
    { intros E. apply Hmem in Hraw. rewrite E in Hraw.
      apply elem_of_nil in Hraw. exact Hraw. }
    destruct (max_by_spec (Py.count window) (set_order window) Hne)
      as (m & Em & Hin & _).
    rewrite Em. simpl. exists m. split; [reflexivity | apply Hmem, Hin].
  - exists raw. split; [reflexivity | exact Hraw].
Qed.

(** What a successful accepted-grip branch returns. *)
Lemma accepted_grip_result s now obj raw conf s1 evs :
  accepted_grip set_order s now obj raw conf = Some (s1, evs) ->
  exists material info grip pain,
    MATERIAL_DATABASE !! material = Some info
    /\ update_pain_level (pain_system s) grip (Some material) true = Some pain
    /\ let feedback := negb (was_in_contact s) || (contact_frame_count s =? 0) in
       let alert := (60 <? pain_level pain)
                    && (3.0 <? now - last_pain_alert s)%float in
       s1 = {| pain_system := pain;
               current_material := Some material;
               current_object := Some obj;
               current_grip := grip; target_grip := grip_strength info;
               confidence := conf;
               grip_history :=
                 Py.deque_append grip_history_maxlen (grip_strength info)
                                 (grip_history s);
               material_history :=
                 Py.deque_append material_history_maxlen raw
                                 (material_history s);
               was_in_contact := true;
               contact_frame_count :=
                 (let count1 := if feedback then 30 else contact_frame_count s in
                  if 0 <? count1 then count1 - 1 else count1);
               last_pain_alert := if alert then now else last_pain_alert s |}
       /\ evs = (if feedback then [ContactFeedback material grip] else [])
                ++ [PainUpdate grip (Some material) true]
                ++ (if alert
                    then [PainAlert (pain_level pain)
                                    (pain_alert (pain_level pain))]
                    else []).
Proof.
  unfold accepted_grip. intros H.
  destruct (smooth_material set_order (material_history s) raw)
    as [[history material]|] eqn:Es; [|discriminate].
  apply smooth_material_history in Es as ->.
  simpl in H.
  destruct (MATERIAL_DATABASE !! material) as [info|] eqn:Ei; [|discriminate].
  simpl in H.
  destruct (Py.int_of_float _) as [grip|] eqn:Eg; [|discriminate].
  simpl in H.
  destruct (update_pain_level _ _ _ _) as [pain|] eqn:Ep; [|discriminate].
  simpl in H. injection H as <- <-.
  exists material, info, grip, pain. repeat split; assumption.
Qed.

Lemma exec_session_ok s c s1 evs :
  session_ok s -> exec set_order s c = Some (s1, evs) -> session_ok s1.
Proof.
  intros [Hm Hl Hc Hn] H.
  destruct c as [now [|obj features]|]; simpl in H.
  - unfold no_detection in H.
    destruct (Py.max0 (confidence s - 0.05) <? 0.1)%float eqn:E.
    + destruct (Py.int_of_float _); simpl in H; [|discriminate].
      destruct (update_pain_level _ _ _ _); simpl in H; [|discriminate].
      injection H as <- <-.
      split; simpl; auto. intros m Hcm. discriminate Hcm.
    + injection H as <- <-. split; simpl; auto.
      intros m Hcm. destruct (Hc m Hcm) as (Hi & Hw & _). auto.
  - destruct (accepted _) as [[raw conf]|] eqn:Ea.
    + destruct (accepted_in_database _ _ _ _ Ea) as [Hraw Hconf].
      destruct (accepted_grip_result _ _ _ _ _ _ _ H)
        as (material & info & grip & pain & Hi & _ & -> & _).
      split; simpl.
      * apply deque_append_Forall; assumption.
      * apply deque_append_length; [unfold material_history_maxlen; lia | exact Hl].
      * intros m Hcm. injection Hcm as <-. eauto.
      * destruct (negb (was_in_contact s) || (contact_frame_count s =? 0)) eqn:Ef;
          simpl; [lia|].
        apply orb_false_iff in Ef as [_ Ez]. apply Z.eqb_neq in Ez.
        destruct (Z.ltb_spec 0 (contact_frame_count s)); lia.
    + unfold weak_detection in H.
      destruct (Py.max0 (confidence s - 0.03) <? 0.2)%float eqn:E.
      * destruct (update_pain_level _ _ _ _); simpl in H; [|discriminate].
        injection H as <- <-.
        split; simpl; auto. intros m Hcm. discriminate Hcm.
      * injection H as <- <-. split; simpl; auto.
        intros m Hcm. destruct (Hc m Hcm) as (Hi & Hw & _).
        split; [exact Hi|]. split; [exact Hw|].
        apply (ltb_not_below _ 0.1 0.2); [vm_compute; reflexivity | exact E].
  - injection H as <- <-. split; simpl; auto; try lia.
    intros m Hcm. discriminate Hcm.
Qed.

Lemma ProstheMind_init_session_ok : session_ok ProstheMind_init.
Proof.
  split; simpl; auto; try lia. intros m Hcm. discriminate Hcm.
Qed.

Lemma reachable_session_ok s : reachable set_order s -> session_ok s.
Proof.
  induction 1 as [|s c s1 evs _ IH He].
  - apply ProstheMind_init_session_ok.
  - eapply exec_session_ok; eauto.
Qed.

End SessionFacts.

(** X3. In every reachable state the three rolling histories respect their
    capacities (10 materials, 15 grips, 20 pain samples), and every entry of
    the material history is a key of the material table. *)
Theorem histories_within_capacity set_order s :
  reachable set_order s ->
  (length (material_history s) <= material_history_maxlen)%nat
  /\ (length (grip_history s) <= grip_history_maxlen)%nat
  /\ (length (pain_history (pain_system s)) <= pain_history_maxlen)%nat
  /\ Forall (fun m => is_Some (MATERIAL_DATABASE !! m)) (material_history s).
Proof.
  intros Hr.
  pose proof (reachable_session_ok _ _ Hr) as [Hm Hl _ _].
  pose proof (reachable_ok _ _ Hr) as [[_ _ Hpl] _ _ Hgl _].
  repeat split; assumption.
Qed.

Lemma histories_within_capacity_witness :
  length (pain_history (pain_system glass_relief)) = 20%nat
  /\ length (grip_history glass_relief) = 15%nat
  /\ length (material_history glass_relief) = 10%nat
  /\ (length (material_history glass_relief) <= material_history_maxlen)%nat.
Proof.
  split; [vm_compute; reflexivity|].
  split; [vm_compute; reflexivity|].
  split; [vm_compute; reflexivity|].
  exact (proj1 (histories_within_capacity first_seen_order glass_relief
                  (state_after_reachable _))).
Defined.

(** X4. In every reachable state a current material is a key of the
    material table, the target grip is that material's base grip strength,
    the contact flag is set, and the confidence is not below 0.1: a material
    is never reported once the confidence has decayed under the lower
    floor. *)
Theorem current_material_consistent set_order s m :
  reachable set_order s ->
  current_material s = Some m ->
  (exists info, MATERIAL_DATABASE !! m = Some info
                /\ target_grip s = grip_strength info)
  /\ was_in_contact s = true
  /\ (confidence s <? 0.1)%float = false.
Proof.
  intros Hr Hm. pose proof (reachable_session_ok _ _ Hr) as [_ _ Hc _].
  exact (Hc m Hm).
Qed.

Lemma current_material_consistent_witness :
  current_material glass_lost = Some "glass"%string
  /\ target_grip glass_lost = 85
  /\ (confidence glass_lost <? 0.1)%float = false.
Proof.
  assert (Hm : current_material glass_lost = Some "glass"%string)
    by (vm_compute; reflexivity).
  split; [exact Hm|]. split; [vm_compute; reflexivity|].
  exact (proj2 (proj2 (current_material_consistent first_seen_order glass_lost
                         "glass"%string (state_after_reachable _) Hm))).
Defined.

(** ** Contact feedback during continuous contact *)

Section ContactCounter.
Variable set_order : list string -> list string.

(** An accepted cycle gives contact feedback, or counts down. *)
Lemma accepted_cycle_counts s c s1 evs :
  0 <= contact_frame_count s <= 29 ->
  is_accepted_cycle c ->
  exec set_order s c = Some (s1, evs) ->
  0 <= contact_frame_count s1 <= 29
  /\ (contact_feedbacks evs <> []
      \/ contact_frame_count s1 = contact_frame_count s - 1).
Proof.
  intros Hn Hc H. destruct c as [now obs|]; [|destruct Hc].
  simpl in Hc, H. destruct obs as [|obj features]; [discriminate Hc|].
  simpl in Hc, H.
  destruct (accepted _) as [[raw conf]|]; [|discriminate Hc].
  destruct (accepted_grip_result _ _ _ _ _ _ _ _ H)
    as (material & info & grip & pain & _ & _ & -> & ->).
  simpl.
  destruct (negb (was_in_contact s) || (contact_frame_count s =? 0)) eqn:Ef;
    simpl.
  - split; [lia|]. left. discriminate.
  - apply orb_false_iff in Ef as [_ Ez]. apply Z.eqb_neq in Ez.
    destruct (Z.ltb_spec 0 (contact_frame_count s)); [|lia].
    split; [lia|]. right. reflexivity.
Qed.

Lemma accepted_run_counts cs : forall s s' evss,
  0 <= contact_frame_count s <= 29 ->
  Forall is_accepted_cycle cs ->
  run set_order s cs = Some (s', evss) ->
  0 <= contact_frame_count s' <= 29
  /\ (Exists (fun evs => contact_feedbacks evs <> []) evss
      \/ contact_frame_count s'
         = contact_frame_count s - Z.of_nat (length cs)).
Proof.
  induction cs as [|c cs IH]; intros s s' evss Hn Hall H; simpl in H.
  - injection H as <- <-. split; [exact Hn|]. right. simpl. lia.
  - apply Forall_cons in Hall as [Hc Hall].
    destruct (exec set_order s c) as [[s1 evs]|] eqn:E; [|discriminate].
    simpl in H.
    destruct (run set_order s1 cs) as [[s2 rest]|] eqn:E2; [|discriminate].
    simpl in H. injection H as <- <-.
    destruct (accepted_cycle_counts _ _ _ _ Hn Hc E) as [Hn1 Hstep].
    destruct (IH _ _ _ Hn1 Hall E2) as [Hn2 Hrest].
    split; [exact Hn2|].
    destruct Hstep as [Hf|Hdec]; [left; left; exact Hf|].
    destruct Hrest as [Hex|Hcount]; [left; right; exact Hex|].
    right. simpl length. lia.
Qed.

End ContactCounter.

(** X5. In every reachable state the contact counter is within 0..29, and
    contact feedback is not latched for the whole contact: among any 30
    consecutive detection cycles with an accepted grip, at least one calls
    the contact feedback. *)
Theorem contact_feedback_within_30_cycles set_order s cs s' evss :
  reachable set_order s ->
  Forall is_accepted_cycle cs ->
  length cs = 30%nat ->
  run set_order s cs = Some (s', evss) ->
  0 <= contact_frame_count s <= 29
  /\ 0 <= contact_frame_count s' <= 29
  /\ Exists (fun evs => contact_feedbacks evs <> []) evss.
Proof.
  intros Hr Hall Hlen H.
  pose proof (reachable_session_ok _ _ Hr) as [_ _ _ Hn].
  destruct (accepted_run_counts _ _ _ _ _ Hn Hall H) as [Hn' [Hex|Hcount]].
  - repeat split; try lia. exact Hex.
  - rewrite Hlen in Hcount. lia.
Qed.

Lemma thirty_glass_cycles_accepted : Forall is_accepted_cycle thirty_glass_cycles.
Proof.
  apply Forall_forall. intros c Hc. unfold thirty_glass_cycles in Hc.
  apply list_elem_of_fmap in Hc as (k & -> & _). vm_compute. reflexivity.
Qed.

Lemma thirty_glass_cycles_run :
  run first_seen_order glass_contact thirty_glass_cycles
  = Some (glass_held, thirty_glass_events).
Proof. vm_compute. reflexivity. Qed.

Lemma contact_feedback_within_30_cycles_witness :
  contact_frame_count glass_contact = 29
  /\ map contact_feedbacks thirty_glass_events
     = repeat [] 29 ++ [[ContactFeedback "glass" 85]]
  /\ Exists (fun evs => contact_feedbacks evs <> []) thirty_glass_events.
Proof.
  split; [vm_compute; reflexivity|].
  split; [vm_compute; reflexivity|].
  exact (proj2 (proj2 (contact_feedback_within_30_cycles first_seen_order
                         glass_contact thirty_glass_cycles glass_held
                         thirty_glass_events (state_after_reachable _)
                         thirty_glass_cycles_accepted eq_refl
                         thirty_glass_cycles_run))).
Defined.

(** ** Failures of a detection cycle *)

(** X6. On a reachable state a detection cycle raises at most in one place:
    every cycle without an accepted grip succeeds, and a cycle with an
    accepted grip succeeds unless [int(total_pain)] raises for its grip (in
    0..100) and its material (a key of the material table); the smoothing,
    the table lookups and the two means never raise. *)
Theorem detection_cycle_raises_only_on_total_pain set_order s now obs :
  set_order_ok set_order ->
  reachable set_order s ->
  (exists s' evs, detection_cycle set_order s now obs = Some (s', evs))
  \/ (has_accepted_grip obs = true
      /\ exists grip material,
           in_range grip
           /\ is_Some (MATERIAL_DATABASE !! material)
           /\ Py.int_of_float
                (total_pain (pain_system s) grip (Some material)) = None).
Proof.
  intros Hso Hr.
  pose proof (reachable_ok _ _ Hr) as [Hp _ Hgh Hgl _].
  pose proof (reachable_session_ok _ _ Hr) as [Hm _ _ _].
  destruct obs as [|obj features]; simpl.
  - left. unfold no_detection.
    destruct (Py.max0 (confidence s - 0.05) <? 0.1)%float; [|eauto].
    destruct (grip_mean_exact (grip_history s) 0 Hgh Hgl (or_introl eq_refl))
      as (Em & _).
    rewrite Em. simpl.
    destruct (update_pain_level_idle_total (pain_system s) 0 None Hp) as [p Ep].
    rewrite Ep. simpl. eauto.
  - destruct (accepted _) as [[raw conf]|] eqn:Ea.
    + destruct (accepted_in_database _ _ _ _ Ea) as [Hraw _].
      unfold accepted_grip.
      destruct (smooth_material_total set_order (material_history s) raw Hso)
        as (material & Es & Hin).
      rewrite Es. simpl.
      assert (Hdb : is_Some (MATERIAL_DATABASE !! material)).
      { assert (Hall : Forall (fun m => is_Some (MATERIAL_DATABASE !! m))
                         (Py.deque_append material_history_maxlen raw
                                          (material_history s)))
          by (apply deque_append_Forall; assumption).
        rewrite Forall_forall in Hall. apply Hall, Hin. }
      destruct Hdb as [info Hi]. rewrite Hi. simpl.
      assert (Hb : base_grip_or_zero (grip_strength info)) by (right; eauto).
      destruct (grip_mean_exact (grip_history s) _ Hgh Hgl Hb)
        as (Em & Hall & Hlen).
      rewrite Em. simpl.
      set (grip := mean_int _).
      assert (Hgrip : in_range grip).
      { apply mean_in_range; [apply deque_append_nonempty|].
        eapply Forall_impl; [exact Hall | apply base_grip_or_zero_in_range]. }
      destruct (Py.int_of_float (total_pain (pain_system s) grip (Some material)))
        as [n|] eqn:En.
      * left.
        destruct (update_pain_level_grip_total _ _ _ _ Hp En) as [p Ep].
        rewrite Ep. simpl. eauto.
      * right. split; [reflexivity|]. exists grip, material.
        split; [exact Hgrip|]. split; [eauto | exact En].
    + left. unfold weak_detection.
      destruct (Py.max0 (confidence s - 0.03) <? 0.2)%float; [|eauto].
      destruct (update_pain_level_idle_total (pain_system s) 0 None Hp) as [p Ep].
      rewrite Ep. simpl. eauto.
Qed.

Lemma detection_cycle_raises_only_on_total_pain_witness :
  (exists s' evs,
     detection_cycle first_seen_order glass_relief 70
       (Detected "knife" None) = Some (s', evs))
  \/ (has_accepted_grip (Detected "knife" None) = true
      /\ exists grip material,
           in_range grip
           /\ is_Some (MATERIAL_DATABASE !! material)
           /\ Py.int_of_float
                (total_pain (pain_system glass_relief) grip (Some material))
              = None).
Proof.
  exact (detection_cycle_raises_only_on_total_pain first_seen_order
           glass_relief 70 (Detected "knife" None) first_seen_order_ok
           (state_after_reachable _)).
Defined.

(** ** Distance bands and the proximity alert *)

Lemma distance_band_values (r : float) :
  In (distance_band r) [5; 8; 12; 20; 35; 50]
  /\ (distance_band r <= 10 <-> (0.2 <? r)%float = true).
Proof.
  unfold distance_band.
  destruct (0.3 <? r)%float eqn:E3.
  - split; [simpl; tauto|]. split; [|lia]. intros _.
    apply (ltb_trans 0.2 0.3 r); [vm_compute; reflexivity | exact E3].
  - destruct (0.2 <? r)%float eqn:E2; [split; [simpl; tauto | split; [reflexivity | lia]]|].
    destruct (0.15 <? r)%float;
      [split; [simpl; tauto | split; [lia | discriminate]]|].
    destruct (0.1 <? r)%float;
      [split; [simpl; tauto | split; [lia | discriminate]]|].
    destruct (0.05 <? r)%float;
      split; try (simpl; tauto); split; try lia; discriminate.
Qed.




(** What the proximity part has done when it returns. *)
Lemma proximity_step_result h now box frame_h frame_w h' d sounds :
  proximity_step h now box frame_h frame_w = Some (h', d, sounds) ->
  In d [5; 8; 12; 20; 35; 50]
  /\ ((sounds = [] /\ h' = h
       /\ (10 < d \/ (beep_cooldown <? now - last_beep_time h)%float = false))
      \/ ((beep_cooldown <? now - last_beep_time h)%float = true
          /\ last_beep_time h' = now
          /\ proximity_alert_active h' = true
          /\ ((d = 5
               /\ sounds = [{| sound_delay := None; sound_frequency := Hz 700;
                               sound_duration := 0.12;
                               sound_volume := 0.60000000000000009 |}])
              \/ (d = 8
                  /\ sounds = [{| sound_delay := None;
                                  sound_frequency := Hz 520;
                                  sound_duration := 0.12;
                                  sound_volume := 0.48000000000000004 |}])))).
Proof.
  destruct box as [[[x1 y1] x2] y2]. unfold proximity_step, estimate_distance.
  destruct (Z.eqb_spec (frame_h * frame_w) 0) as [E|Hne]; [discriminate|].
  simpl. set (r := (_ / _)%float).
  destruct (distance_band_values r) as [Hin Hprox].
  unfold proximity_alert.
  destruct (Z.leb_spec (distance_band r) 10) as [Hle|Hgt].
  - simpl.
    destruct (beep_cooldown <? now - last_beep_time h)%float eqn:Ec;
      intros H; injection H as <- <- <-; split; try exact Hin.
    + right. split; [reflexivity|]. split; [reflexivity|].
      split; [reflexivity|]. simpl in Hin.
      destruct Hin as [E|[E|[E|[E|[E|[E|[]]]]]]];
        rewrite <- E in Hle |- *; try lia; [left | right];
        (split; [reflexivity | vm_compute; reflexivity]).
    + left. repeat split. right. reflexivity.
  - intros H. injection H as <- <- <-.
    split; [exact Hin|]. left. repeat split. left. exact Hgt.
Qed.

(** The proximity part returns for every frame of a nonzero area. *)
Lemma proximity_step_total h now box frame_h frame_w :
  (proximity_step h now box frame_h frame_w = None <-> frame_h * frame_w = 0)
  /\ (frame_h * frame_w <> 0 ->
      exists h' d sounds,
        proximity_step h now box frame_h frame_w = Some (h', d, sounds)).
Proof.
  destruct box as [[[x1 y1] x2] y2]. unfold proximity_step, estimate_distance.
  destruct (Z.eqb_spec (frame_h * frame_w) 0) as [E|Hne].
  - split; [split; [intros _; exact E | reflexivity] | contradiction].
  - cbn [mbind option_bind]. set (d := distance_band _).
    destruct (d <=? 10).
    + destruct (proximity_alert h now d) as [[h' flag] sounds].
      split; [split; [discriminate | contradiction]|].
      intros _. exists h', d, sounds. reflexivity.
    + split; [split; [discriminate | contradiction]|].
      intros _. exists h, d, []. reflexivity.
Qed.

(** X8. On pixel areas (ints below 2^53 in absolute value) the proximity
    part of a cycle with a box raises exactly on a frame of area zero.  On
    every other frame it returns the distance of the estimate and requests
    at most one beep, only in the two nearest bands and when more than the
    cooldown of 0.2 s has passed since the last proximity beep: 700 Hz at
    volume 0.6 for 5 cm, 520 Hz at volume 0.48 for 8 cm, both under the cap
    of 0.8, after which the time of the last beep is the current time.
    Otherwise the simulator is left as it was. *)
Theorem proximity_step_beeps h now x1 y1 x2 y2 frame_h frame_w :
  exact_as_float ((x2 - x1) * (y2 - y1)) ->
  exact_as_float (frame_h * frame_w) ->
  (proximity_step h now (x1, y1, x2, y2) frame_h frame_w = None
   <-> frame_h * frame_w = 0)
  /\ (frame_h * frame_w <> 0 ->
      exists h' d sounds,
        proximity_step h now (x1, y1, x2, y2) frame_h frame_w
        = Some (h', d, sounds)
        /\ estimate_distance ((x2 - x1) * (y2 - y1)) (frame_h * frame_w)
           = Some d
        /\ In d [5; 8; 12; 20; 35; 50]
        /\ ((sounds = [] /\ h' = h
             /\ (10 < d
                 \/ (beep_cooldown <? now - last_beep_time h)%float = false))
            \/ ((beep_cooldown <? now - last_beep_time h)%float = true
                /\ last_beep_time h' = now
                /\ proximity_alert_active h' = true
                /\ ((d = 5
                     /\ sounds = [{| sound_delay := None;
                                     sound_frequency := Hz 700;
                                     sound_duration := 0.12;
                                     sound_volume := 0.60000000000000009 |}])
                    \/ (d = 8
                        /\ sounds = [{| sound_delay := None;
                                        sound_frequency := Hz 520;
                                        sound_duration := 0.12;
                                        sound_volume
                                        := 0.48000000000000004 |}]))))).
Proof.
  intros _ _.
  destruct (proximity_step_total h now (x1, y1, x2, y2) frame_h frame_w)
    as [Hnone Hsome].
  split; [exact Hnone|]. intros Hne.
  destruct (Hsome Hne) as (h' & d & sounds & E).
  exists h', d, sounds. split; [exact E|].
  split; [|exact (proximity_step_result _ _ _ _ _ _ _ _ E)].
  revert E. unfold proximity_step. cbn beta iota.
  destruct (estimate_distance _ _) as [d0|]; [|discriminate].
  cbn [mbind option_bind].
  destruct (d0 <=? 10).
  - destruct (proximity_alert h now d0) as [[h0 flag] sounds0].
    intros E. injection E as _ <- _. reflexivity.
  - intros E. injection E as _ <- _. reflexivity.
Qed.

Lemma proximity_step_beeps_witness :
  proximity_step HapticFeedbackSimulator_init 3 (400, 100, 1000, 600) 720 1280
  = Some ({| last_beep_time := 3; proximity_alert_active := true;
             contact_feedback_active := false; feedback_animation := 25 |},
          5,
          [{| sound_delay := None; sound_frequency := Hz 700;
              sound_duration := 0.12;
              sound_volume := 0.60000000000000009 |}])
  /\ (proximity_step HapticFeedbackSimulator_init 3 (400, 100, 1000, 600)
                     720 1280 = None
      <-> 720 * 1280 = 0).
Proof.
  split; [vm_compute; reflexivity|].
  refine (proj1 (proximity_step_beeps HapticFeedbackSimulator_init 3
                   400 100 1000 600 720 1280 _ _));
    unfold exact_as_float; simpl; lia.
Defined.

(** ** Contact feedback *)

Lemma contact_sound_table :
  forallb
    (fun g =>
       (0.4 <=? Py.min_with (0.4 + Py.float_of_int g / 250) 0.8)%float
       && (Py.min_with (0.4 + Py.float_of_int g / 250) 0.8 <=? 0.8)%float
       && (0.2 <=? 0.2 + Py.float_of_int g / 400)%float
       && (0.2 + Py.float_of_int g / 400 <=? 0.45)%float)
    (seqZ 0 101) = true.
Proof. vm_compute. reflexivity. Qed.

Lemma MATERIAL_DATABASE_key_truthy m info :
  MATERIAL_DATABASE !! m = Some info -> Py.truthy (Some m) = true.
Proof.
  intros H. apply dict_display_lookup in H.
  unfold MATERIAL_DATABASE_items in H.
  repeat (apply elem_of_cons in H as [H|H];
          [injection H as -> _; vm_compute; reflexivity|]).
  apply elem_of_nil in H. destruct H.
Qed.

(** X9. The contact feedback requests nothing, and leaves the simulator as
    it was, for no material or a material that is not in the material table.
    In a detection cycle from a reachable state this never happens: every
    contact feedback the cycle calls names a key of the table and the new
    applied grip, in 0..100, so that it requests a first beep at the
    material's sound frequency, with a volume within 0.4..0.8 and a duration
    within 0.2..0.45 s, followed by the delayed second pulse exactly when
    the grip is above 70 and the material is glass, ceramic or paper. *)
Theorem contact_feedback_in_cycle set_order s now obs s' evs m g h :
  reachable set_order s ->
  detection_cycle set_order s now obs = Some (s', evs) ->
  In (ContactFeedback m g) evs ->
  (forall grip, contact_feedback h None grip = (h, []))
  /\ (forall unknown grip,
        MATERIAL_DATABASE !! unknown = None ->
        contact_feedback h (Some unknown) grip = (h, []))
  /\ g = current_grip s' /\ in_range g
  /\ exists info h' first rest,
       MATERIAL_DATABASE !! m = Some info
       /\ contact_feedback h (Some m) g = (h', first :: rest)
       /\ contact_feedback_active h' = true
       /\ sound_delay first = None
       /\ sound_frequency first = Hz (sound_freq info)
       /\ (0.4 <=? sound_volume first)%float = true
       /\ (sound_volume first <=? 0.8)%float = true
       /\ (0.2 <=? sound_duration first)%float = true
       /\ (sound_duration first <=? 0.45)%float = true
       /\ (rest <> [] <-> 70 < g /\ m ∈ fragile_materials)
       /\ (length rest <= 1)%nat.
Proof.
  intros Hr H Hin.
  split; [reflexivity|].
  split.
  { intros unknown grip Hu. unfold contact_feedback. rewrite Hu.
    destruct (Py.truthy (Some unknown)); reflexivity. }
  assert (Hok' : state_ok s').
  { eapply exec_ok with (c := Cycle now obs); [eapply reachable_ok; eauto | exact H]. }
  pose proof (state_ok_grip_in_range _ Hok') as Hg.
  assert (Hev : g = current_grip s' /\ is_Some (MATERIAL_DATABASE !! m)).
  { destruct obs as [|obj features]; simpl in H.
    - unfold no_detection in H.
      destruct (Py.max0 (confidence s - 0.05) <? 0.1)%float.
      + destruct (Py.int_of_float _); simpl in H; [|discriminate].
        destruct (update_pain_level _ _ _ _); simpl in H; [|discriminate].
        injection H as <- <-. simpl in Hin. destruct Hin as [Hin|[]].
        discriminate Hin.
      + injection H as <- <-. destruct Hin.
    - destruct (accepted _) as [[raw conf]|].
      + destruct (accepted_grip_result _ _ _ _ _ _ _ _ H)
          as (material & info & grip & pain & Hi & _ & -> & ->).
        simpl.
        destruct (negb (was_in_contact s) || (contact_frame_count s =? 0)).
        * simpl in Hin. destruct Hin as [Hin|[Hin|Hin]]; try discriminate Hin.
          -- injection Hin as <- <-. split; [reflexivity | eauto].
          -- destruct ((60 <? pain_level pain) && _); simpl in Hin;
               [destruct Hin as [Hin|[]]; discriminate Hin | destruct Hin].
        * simpl in Hin. destruct Hin as [Hin|Hin]; [discriminate Hin|].
          destruct ((60 <? pain_level pain) && _); simpl in Hin;
            [destruct Hin as [Hin|[]]; discriminate Hin | destruct Hin].
      + unfold weak_detection in H.
        destruct (Py.max0 (confidence s - 0.03) <? 0.2)%float.
        * destruct (update_pain_level _ _ _ _); simpl in H; [|discriminate].
          injection H as <- <-. simpl in Hin. destruct Hin as [Hin|[]].
          discriminate Hin.
        * injection H as <- <-. destruct Hin. }
  destruct Hev as [Eg [info Hi]].
  split; [exact Eg|]. split; [rewrite Eg; exact Hg|].
  assert (Hrange : in_range g) by (rewrite Eg; exact Hg).
  assert (Hing : In g (seqZ 0 101))
    by (apply list_elem_of_In, elem_of_seqZ; unfold in_range in Hrange; lia).
  pose proof (proj1 (forallb_forall _ _) contact_sound_table _ Hing) as T.
  cbv beta in T. repeat rewrite andb_true_iff in T.
  destruct T as (((T1 & T2) & T3) & T4).
  unfold contact_feedback.
  rewrite (MATERIAL_DATABASE_key_truthy _ _ Hi), Hi.
  eexists info, _, _, _. split; [reflexivity|]. split; [reflexivity|].
  simpl. repeat (split; [first [reflexivity | assumption]|]).
  destruct (Z.ltb_spec 70 g) as [Hgt|Hle]; simpl.
  - destruct (bool_decide_reflect (m ∈ fragile_materials)) as [Hf|Hf].
    + split; [|simpl; lia]. split; [intros _; split; assumption | discriminate].
    + split; [|simpl; lia]. split; [congruence | tauto].
  - split; [|simpl; lia]. split; [congruence | intros [? _]; lia].
Qed.

Lemma contact_feedback_in_cycle_witness :
  exists s' evs h' first second,
    detection_cycle first_seen_order ProstheMind_init 10
      (Detected "wine glass" (Some rough_features)) = Some (s', evs)
    /\ In (ContactFeedback "glass" 85) evs
    /\ contact_feedback HapticFeedbackSimulator_init (Some "glass"%string) 85
       = (h', [first; second])
    /\ sound_frequency first = Hz 800
    /\ sound_frequency second = HzFloat 1040
    /\ in_range 85.
Proof.
  eexists. eexists. eexists. eexists. eexists.
  split; [vm_compute; reflexivity|].
  split; [left; reflexivity|].
  split; [vm_compute; reflexivity|].
  split; [reflexivity|]. split; [reflexivity|].
  refine (proj1 (proj2 (proj2 (proj2
            (contact_feedback_in_cycle first_seen_order ProstheMind_init 10
               (Detected "wine glass" (Some rough_features)) _ _
               "glass"%string 85 HapticFeedbackSimulator_init
               (reachable_init _) _ _))))).
  - vm_compute. reflexivity.
  - left. reflexivity.
Defined.

(** ** Pain alerts, their spacing, and the pain status *)

Section AlertFacts.
Variable set_order : list string -> list string.

(** A command either requests no pain alert and keeps the time of the last
    one, or is a cycle that requests one for a level above 60, more than
    3.0 s after the last one, and records its own time. *)
Lemma exec_pain_alert s c s1 evs :
  exec set_order s c = Some (s1, evs) ->
  (pain_alerts evs = [] /\ last_pain_alert s1 = last_pain_alert s)
  \/ (exists now obs,
        c = Cycle now obs
        /\ pain_alerts evs
           = [PainAlert (pain_level (pain_system s1))
                        (pain_alert (pain_level (pain_system s1)))]
        /\ 60 < pain_level (pain_system s1)
        /\ (3.0 <? now - last_pain_alert s)%float = true
        /\ last_pain_alert s1 = now).
Proof.
  intros H. destruct c as [now [|obj features]|]; simpl in H.
  - left. unfold no_detection in H.
    destruct (Py.max0 (confidence s - 0.05) <? 0.1)%float.
    + destruct (Py.int_of_float _); simpl in H; [|discriminate].
      destruct (update_pain_level _ _ _ _); simpl in H; [|discriminate].
      injection H as <- <-. split; reflexivity.
    + injection H as <- <-. split; reflexivity.
  - destruct (accepted _) as [[raw conf]|].
    + destruct (accepted_grip_result _ _ _ _ _ _ _ _ H)
        as (material & info & grip & pain & _ & _ & -> & ->).
      simpl.
      destruct (Z.ltb_spec 60 (pain_level pain)) as [Hl|Hl]; simpl.
      * destruct (3.0 <? now - last_pain_alert s)%float eqn:Et.
        -- right. exists now, (Detected obj features).
           repeat split; try assumption.
           destruct (negb (was_in_contact s) || (contact_frame_count s =? 0));
             reflexivity.
        -- left. split; [|reflexivity].
           destruct (negb (was_in_contact s) || (contact_frame_count s =? 0));
             reflexivity.
      * left. split; [|reflexivity].
        destruct (negb (was_in_contact s) || (contact_frame_count s =? 0));
          reflexivity.
    + left. unfold weak_detection in H.
      destruct (Py.max0 (confidence s - 0.03) <? 0.2)%float.
      * destruct (update_pain_level _ _ _ _); simpl in H; [|discriminate].
        injection H as <- <-. split; reflexivity.
      * injection H as <- <-. split; reflexivity.
  - left. injection H as <- <-. split; reflexivity.
Qed.

Lemma run_without_pain_alert cs : forall s s' evss,
  run set_order s cs = Some (s', evss) ->
  Forall (fun evs => pain_alerts evs = []) evss ->
  last_pain_alert s' = last_pain_alert s.
Proof.
  induction cs as [|c cs IH]; intros s s' evss H Hall; simpl in H.
  - injection H as <- _. reflexivity.
  - destruct (exec set_order s c) as [[s1 evs]|] eqn:E; [|discriminate].
    simpl in H.
    destruct (run set_order s1 cs) as [[s2 rest]|] eqn:E2; [|discriminate].
    simpl in H. injection H as <- <-.
    apply Forall_cons in Hall as [Hevs Hrest].
    rewrite (IH _ _ _ E2 Hrest).
    destruct (exec_pain_alert _ _ _ _ E) as [[_ Hl]|(now & obs & _ & Ha & _)].
    + exact Hl.
    + rewrite Ha in Hevs. discriminate Hevs.
Qed.

End AlertFacts.

(** X10. Pain alerts are rate limited across cycles: when a cycle at time
    [t1] requests a pain alert and the next cycle that requests one is at
    time [t2], whatever cycles and resets lie between them, then
    [t2 - t1 > 3.0] in binary64 arithmetic. *)
Theorem pain_alerts_three_seconds_apart set_order s t1 obs1 between t2 obs2
    s' evs1 quiet evs2 :
  run set_order s (Cycle t1 obs1 :: between ++ [Cycle t2 obs2])
  = Some (s', evs1 :: quiet ++ [evs2]) ->
  length quiet = length between ->
  pain_alerts evs1 <> [] ->
  Forall (fun evs => pain_alerts evs = []) quiet ->
  pain_alerts evs2 <> [] ->
  (3.0 <? t2 - t1)%float = true.
Proof.
  intros H Hlen H1 Hq H2. simpl in H.
  destruct (detection_cycle set_order s t1 obs1) as [[s1 e1]|] eqn:E1;
    [|discriminate].
  simpl in H. rewrite run_app in H.
  destruct (run set_order s1 between) as [[s2 evs_between]|] eqn:Eb;
    [|discriminate].
  simpl in H.
  destruct (detection_cycle set_order s2 t2 obs2) as [[s3 e2]|] eqn:E2;
    [|discriminate].
  simpl in H. injection H as Hs3 He1 Hevs. subst s3 e1.
  assert (Hb : length evs_between = length between).
  { clear -Eb. revert s1 s2 evs_between Eb.
    induction between as [|c cs IH]; intros s1 s2 evss H; simpl in H.
    - injection H as _ <-. reflexivity.
    - destruct (exec set_order s1 c) as [[sa ea]|]; [|discriminate].
      simpl in H.
      destruct (run set_order sa cs) as [[sb rest]|] eqn:Er; [|discriminate].
      simpl in H. injection H as _ <-. simpl. f_equal. eapply IH. exact Er. }
  apply app_inj_1 in Hevs as [Hsame Hlast]; [|congruence].
  injection Hlast as He2. subst evs_between e2.
  destruct (exec_pain_alert set_order s (Cycle t1 obs1) s1 evs1 E1)
    as [[Hn _]|(now & obs & Hc & _ & _ & _ & Ht1)]; [contradiction|].
  injection Hc as <- <-.
  pose proof (run_without_pain_alert _ _ _ _ _ Eb Hq) as Hkeep.
  destruct (exec_pain_alert set_order s2 (Cycle t2 obs2) s' evs2 E2)
    as [[Hn _]|(now & obs & Hc & _ & _ & Ht & _)]; [contradiction|].
  injection Hc as <- <-.
  rewrite Hkeep, Ht1 in Ht. exact Ht.
Qed.

Lemma glass_alerted_twice_run :
  run first_seen_order ProstheMind_init
    (Cycle 10 (Detected "wine glass" (Some rough_features))
     :: [see 11 "wine glass"; Reset]
     ++ [Cycle 14 (Detected "wine glass" (Some rough_features))])
  = Some (glass_alerted_twice,
          [ContactFeedback "glass" 85; PainUpdate 85 (Some "glass"%string) true;
           PainAlert 61 [Beep 600 0.15 0.5]]
          :: [[PainUpdate 85 (Some "glass"%string) true]; []]
          ++ [[PainUpdate 85 (Some "glass"%string) true;
               PainAlert 61 [Beep 600 0.15 0.5]]]).
Proof. vm_compute. reflexivity. Qed.

Lemma pain_alerts_three_seconds_apart_witness : (3.0 <? 14 - 10)%float = true.
Proof.
  apply (pain_alerts_three_seconds_apart _ _ _ _ _ _ _ _ _ _ _
           glass_alerted_twice_run).
  - reflexivity.
  - discriminate.
  - repeat constructor.
  - discriminate.
Defined.

(** ** Insights *)

Lemma nested_dict_display_lookup items k insight :
  nested_dict_display items !! k = Some insight ->
  exists raw, (k, raw) ∈ items /\ insight = Py.dict_display raw.
Proof.
  unfold nested_dict_display. intros H. apply dict_display_lookup in H.
  apply list_elem_of_fmap in H as ([k' raw] & E & Hin).
  simpl in E. injection E as -> ->. eauto.
Qed.

Lemma OBJECT_INSIGHTS_entries_ok :
  forallb (fun kv => insight_entry_ok (Py.dict_display (snd kv)))
          OBJECT_INSIGHTS_items = true.
Proof. vm_compute. reflexivity. Qed.

Lemma OBJECT_INSIGHTS_default_entry :
  match OBJECT_INSIGHTS !! "default"%string with
  | Some insight =>
      insight_entry_ok insight
      && bool_decide (insight !! "warning_level"%string = Some (Text "low"))
  | None => false
  end = true.
Proof. vm_compute. reflexivity. Qed.

Lemma OBJECT_INSIGHTS_default :
  exists insight,
    OBJECT_INSIGHTS !! "default"%string = Some insight
    /\ insight_entry_ok insight = true
    /\ insight !! "warning_level"%string = Some (Text "low").
Proof.
  pose proof OBJECT_INSIGHTS_default_entry as H.
  destruct (OBJECT_INSIGHTS !! "default"%string) as [insight|]; [|discriminate].
  apply andb_true_iff in H as [Hok Hlow].
  apply bool_decide_eq_true in Hlow. eauto.
Qed.

Lemma get_object_insight_ok object_name :
  exists insight,
    get_object_insight object_name = Some insight
    /\ insight_entry_ok insight = true.
Proof.
  unfold get_object_insight.
  destruct (OBJECT_INSIGHTS !! object_name) as [insight|] eqn:E.
  - exists insight. split; [reflexivity|].
    apply nested_dict_display_lookup in E as (raw & Hin & ->).
    apply list_elem_of_In in Hin.
    exact (proj1 (forallb_forall _ _) OBJECT_INSIGHTS_entries_ok _ Hin).
  - destruct OBJECT_INSIGHTS_default as (insight & Hd & Hok & _). eauto.
Qed.

(** What the cycle reads in a well-formed entry. *)
Lemma insight_entry_ok_inv insight :
  insight_entry_ok insight = true ->
  exists level text tips,
    insight !! "warning_level"%string = Some (Text level)
    /\ insight !! "insight"%string = Some (Text text)
    /\ insight !! "tips"%string = Some (Texts tips)
    /\ In (object_insight_alert (Text level)) insight_sounds
    /\ insight <> ∅.
Proof.
  unfold insight_entry_ok. intros H.
  destruct (insight !! "warning_level"%string) as [[level|]|] eqn:El;
    try discriminate.
  destruct (insight !! "insight"%string) as [[text|]|]; try discriminate.
  destruct (insight !! "tips"%string) as [[|tips]|]; try discriminate.
  exists level, text, tips. repeat split; try reflexivity.
  - apply bool_decide_eq_true in H. unfold warning_levels in H.
    repeat (apply elem_of_cons in H as [->|H];
            [vm_compute; tauto|]).
    apply elem_of_nil in H. destruct H.
  - intros ->. rewrite lookup_empty in El. discriminate El.
Qed.

(** X11. The object-insight part of a cycle never raises, whatever the
    detected class name: an object without an entry of its own gets the
    entry "default", whose beep is the low one, and every entry it can read
    has the warning level, the text and the tips that the cycle uses.  It
    requests a beep only when the object differs from the previous one and
    more than 1.5 s have passed since the last insight sound; the beep is
    then one of the four patterns of the warning levels, and the time of the
    last insight sound becomes the current time. *)
Theorem object_insight_step_total i previous now obj :
  exists i' sounds,
    object_insight_step i previous now obj = Some (i', sounds)
    /\ (sounds = [] \/ In sounds insight_sounds)
    /\ (sounds <> [] ->
        Some obj <> previous
        /\ (1.5 <? now - last_insight_sound i)%float = true
        /\ last_insight_sound i' = now)
    /\ (Some obj = previous -> i' = i)
    /\ (Some obj <> previous ->
        current_insight i' = get_object_insight obj
        /\ exists insight,
             current_insight i' = Some insight
             /\ insight_entry_ok insight = true)
    /\ (Some obj <> previous -> OBJECT_INSIGHTS !! obj = None ->
        current_insight i' = OBJECT_INSIGHTS !! "default"%string
        /\ (sounds = [] \/ sounds = [Beep 400 0.1 0.4])).
Proof.
  unfold object_insight_step.
  destruct (bool_decide_reflect (Some obj = previous)) as [E|Hne].
  - exists i, []. split; [reflexivity|]. split; [left; reflexivity|].
    repeat split; try congruence; contradiction.
  - destruct (get_object_insight_ok obj) as (insight & Hg & Hok).
    rewrite Hg. cbn [mbind option_bind].
    destruct (insight_entry_ok_inv _ Hok)
      as (level & text & tips & Hl & Ht & Hp & Hs & _).
    assert (Hdefault : OBJECT_INSIGHTS !! obj = None ->
              Some insight = OBJECT_INSIGHTS !! "default"%string
              /\ object_insight_alert (Text level) = [Beep 400 0.1 0.4]).
    { intros Hnone. unfold get_object_insight in Hg. rewrite Hnone in Hg.
      split; [congruence|].
      destruct OBJECT_INSIGHTS_default as (d & Hd & _ & Hlow).
      rewrite Hd in Hg. injection Hg as ->. rewrite Hl in Hlow.
      injection Hlow as ->. reflexivity. }
    destruct (1.5 <? now - last_insight_sound i)%float eqn:Et.
    + rewrite Hl, Ht, Hp. cbn [mbind option_bind]. eexists. eexists.
      split; [reflexivity|]. split; [right; exact Hs|].
      cbn [current_insight last_insight_sound].
      repeat split; try congruence; eauto.
      * apply Hdefault. assumption.
      * right. apply Hdefault. assumption.
    + eexists. eexists. split; [reflexivity|]. split; [left; reflexivity|].
      cbn [current_insight last_insight_sound].
      repeat split; try congruence; eauto.
      * apply Hdefault. assumption.
Qed.

Lemma MATERIAL_INSIGHTS_cover_database :
  forallb
    (fun kv =>
       match get_material_insight (Some (fst kv)) with
       | Some insight =>
           insight_entry_ok insight
           && bool_decide
                (MATERIAL_INSIGHTS
                   !! (if bool_decide (fst kv = "stone"%string)
                       then "granite"%string else fst kv)
                 = Some insight)
       | None => false
       end)
    MATERIAL_DATABASE_items = true.
Proof. vm_compute. reflexivity. Qed.

(** X12. For every key of the material table the material-insight part of an
    accepted grip with a new material never raises and finds an insight:
    the material's own entry, except for stone, whose insight is the entry
    of granite and never the entry written for stone.  The entry has the
    warning level, the text and the tips that the cycle reads; a beep is
    requested exactly when more than 1.5 s have passed since the last
    insight sound, and is one of the four patterns of the warning levels.
    Without a new material nothing changes. *)
Theorem material_insight_step_total i now m :
  is_Some (MATERIAL_DATABASE !! m) ->
  material_insight_step i now m false = Some (i, [])
  /\ exists i' sounds insight,
       material_insight_step i now m true = Some (i', sounds)
       /\ current_material_insight i' = Some insight
       /\ insight_entry_ok insight = true
       /\ MATERIAL_INSIGHTS
            !! (if bool_decide (m = "stone"%string) then "granite"%string else m)
          = Some insight
       /\ MATERIAL_INSIGHTS !! "stone"%string
          <> MATERIAL_INSIGHTS !! "granite"%string
       /\ (sounds = [] \/ In sounds insight_sounds)
       /\ (sounds <> [] <-> (1.5 <? now - last_insight_sound i)%float = true).
Proof.
  intros [info Hi]. split; [reflexivity|].
  apply dict_display_lookup, list_elem_of_In in Hi.
  pose proof (proj1 (forallb_forall _ _) MATERIAL_INSIGHTS_cover_database _ Hi)
    as T.
  cbn beta iota delta [fst] in T. unfold material_insight_step.
  destruct (get_material_insight (Some m)) as [insight|]; [|discriminate].
  apply andb_true_iff in T as [Hok Hlook].
  apply bool_decide_eq_true in Hlook.
  destruct (insight_entry_ok_inv _ Hok)
    as (level & text & tips & Hl & Ht & Hp & Hs & Hne).
  destruct (bool_decide_reflect (insight = ∅)) as [E|_]; [contradiction|].
  assert (Hdiff : MATERIAL_INSIGHTS !! "stone"%string
                  <> MATERIAL_INSIGHTS !! "granite"%string).
  { intros E.
    assert (E2 : (MATERIAL_INSIGHTS !! "stone"%string)
                   ≫= (fun e => e !! "insight"%string)
                 = (MATERIAL_INSIGHTS !! "granite"%string)
                     ≫= (fun e => e !! "insight"%string))
      by (rewrite E; reflexivity).
    vm_compute in E2. discriminate E2. }
  destruct (1.5 <? now - last_insight_sound i)%float eqn:Et.
  - rewrite Hl. cbn [mbind option_bind]. rewrite Ht, Hp.
    cbn [mbind option_bind].
    eexists. eexists. exists insight. split; [reflexivity|].
    cbn [current_material_insight].
    repeat split; try assumption; try (right; exact Hs).
    intros _. unfold object_insight_alert.
    destruct (bool_decide (Text level = Text "critical")); [discriminate|].
    destruct (bool_decide (Text level = Text "high")); [discriminate|].
    destruct (bool_decide (Text level = Text "medium")); discriminate.
  - cbn [mbind option_bind]. rewrite Ht, Hp. cbn [mbind option_bind].
    eexists. eexists. exists insight. split; [reflexivity|].
    cbn [current_material_insight].
    repeat split; try assumption; try (left; reflexivity);
      try congruence; discriminate.
Qed.

Lemma material_insight_step_total_witness :
  material_insight_step InsightState_init 5 "glass" false
  = Some (InsightState_init, []).
Proof.
  refine (proj1 (material_insight_step_total InsightState_init 5 "glass" _)).
  apply material_names_in_database. set_solver.
Defined.

(** ** Pain status *)

(** X13. The status message agrees with the other thresholds of the pain
    model: when an update switches relief mode on the status of the new
    level is HIGH or CRITICAL, when it switches relief mode off the status
    is MILD or NORMAL, and whenever a command requests a pain alert the
    status of the new level is HIGH or CRITICAL. *)
Theorem pain_status_at_switches p grip material is_gripping p' :
  update_pain_level p grip material is_gripping = Some p' ->
  (relief_mode p = false -> relief_mode p' = true ->
   In (fst (get_pain_status p')) ["🔥 CRITICAL"; "⚠️ HIGH"]%string)
  /\ (relief_mode p = true -> relief_mode p' = false ->
      In (fst (get_pain_status p')) ["○ MILD"; "✓ NORMAL"]%string)
  /\ (forall set_order s c s1 evs,
        exec set_order s c = Some (s1, evs) ->
        pain_alerts evs <> [] ->
        In (fst (get_pain_status (pain_system s1)))
           ["🔥 CRITICAL"; "⚠️ HIGH"]%string).
Proof.
  intros H. pose proof (update_pain_level_relief _ _ _ _ _ H) as Hr.
  unfold relief_after in Hr.
  assert (Hhigh : forall q, 60 < pain_level q ->
            In (fst (get_pain_status q)) ["🔥 CRITICAL"; "⚠️ HIGH"]%string).
  { intros q Hq. unfold get_pain_status.
    destruct (Z.ltb_spec 80 (pain_level q)); [left; reflexivity|].
    destruct (Z.ltb_spec 60 (pain_level q)); [right; left; reflexivity | lia]. }
  split; [|split].
  - intros Hoff Hon. apply Hhigh.
    destruct (Z.ltb_spec 75 (pain_level p')); [lia|].
    destruct (Z.ltb_spec (pain_level p') 40); congruence.
  - intros Hon Hoff.
    destruct (Z.ltb_spec 75 (pain_level p')); [congruence|].
    destruct (Z.ltb_spec (pain_level p') 40); [|congruence].
    unfold get_pain_status.
    destruct (Z.ltb_spec 80 (pain_level p')); [lia|].
    destruct (Z.ltb_spec 60 (pain_level p')); [lia|].
    destruct (Z.ltb_spec 40 (pain_level p')); [lia|].
    destruct (Z.ltb_spec 20 (pain_level p'));
      [left | right; left]; reflexivity.
  - intros set_order s c s1 evs He Ha. apply Hhigh.
    destruct (exec_pain_alert _ _ _ _ _ He) as [[Hn _]|(now & obs & _ & _ & Hl & _)];
      [contradiction | exact Hl].
Qed.

Lemma pain_status_at_switches_witness :
  relief_mode metal_62 = false
  /\ relief_mode metal_63 = true
  /\ get_pain_status metal_63 = ("⚠️ HIGH"%string, (0, 100, 255))
  /\ In (fst (get_pain_status metal_63)) ["🔥 CRITICAL"; "⚠️ HIGH"]%string.
Proof.
  assert (Hoff : relief_mode metal_62 = false) by (vm_compute; reflexivity).
  assert (Hon : relief_mode metal_63 = true) by (vm_compute; reflexivity).
  assert (E : update_pain_level metal_62 90 metal true = Some metal_63)
    by (vm_compute; reflexivity).
  split; [exact Hoff|]. split; [exact Hon|].
  split; [vm_compute; reflexivity|].
  exact (proj1 (pain_status_at_switches _ _ _ _ _ E) Hoff Hon).
Defined.

(** ** Pain fades at rest *)

Lemma mean_upper_bound (hi : Z) (l : list Z) :
  l <> [] -> Forall (fun x => x <= hi) l -> mean_int l <= hi.
Proof.
  intros Hne Hall. unfold mean_int.
  assert (Hsum : Py.sum_int l <= hi * Z.of_nat (length l)).
  { induction Hall as [|x l Hx _ IH]; simpl; [lia|].
    destruct l as [|y l'].
    - simpl. lia.
    - specialize (IH ltac:(discriminate)). simpl in *. lia. }
  apply Z.div_le_upper_bound.
  - destruct l; [congruence | simpl; lia].
  - lia.
Qed.

(** One not-gripping update on a pain model that is fading. *)
Lemma pain_fading_step j bound p p' :
  (j < 20)%nat -> 0 <= bound ->
  pain_ok p ->
  pain_fading j bound (Z.max 0 (bound - 2)) p ->
  update_pain_level p 0 None false = Some p' ->
  pain_fading (S j) bound (Z.max 0 (bound - 2)) p'.
Proof.
  intros Hj Hb Hok (Hlevel & old & new & Hh & Hnew & Hlen & Hold & Hfresh) H.
  destruct (idle_update_decays _ _ Hok H) as (Hh' & Hl' & _ & _).
  assert (Hsample : Z.max 0 (pain_level p - 2) <= Z.max 0 (bound - 2)) by lia.
  assert (Hsplit : exists old',
             pain_history p' = old' ++ (new ++ [Z.max 0 (pain_level p - 2)])
             /\ (length old' + S j <= 20)%nat
             /\ Forall (fun x => x <= bound) old').
  { rewrite Hh', Hh. unfold Py.deque_append, pain_history_maxlen.
    rewrite length_app, Hnew.
    destruct (Nat.leb_spec 20 (length old + j)) as [Hfull|Hroom].
    - destruct old as [|o old']; [simpl in Hfull; lia|].
      exists old'. simpl. rewrite <- app_assoc.
      split; [reflexivity|]. split; [simpl in Hlen; lia|].
      apply Forall_cons in Hold as [_ Hold]. exact Hold.
    - exists old. rewrite <- app_assoc.
      split; [reflexivity|]. split; [lia | exact Hold]. }
  destruct Hsplit as (old' & Hh2 & Hlen2 & Hold2).
  assert (Hall : Forall (fun x => x <= bound) (pain_history p')).
  { rewrite Hh2. apply Forall_app. split; [exact Hold2|].
    apply Forall_app. split.
    - eapply Forall_impl; [exact Hfresh|]. simpl. lia.
    - repeat constructor. lia. }
  split.
  - rewrite Hl'. apply mean_upper_bound; [|exact Hall].
    rewrite Hh'. apply deque_append_nonempty.
  - exists old', (new ++ [Z.max 0 (pain_level p - 2)]).
    split; [exact Hh2|]. split; [rewrite length_app, Hnew; simpl; lia|].
    split; [exact Hlen2|]. split; [exact Hold2|].
    apply Forall_app. split; [exact Hfresh|]. repeat constructor. exact Hsample.
Qed.

Lemma at_rest_fading k : forall j bound p,
  (j + k <= 20)%nat -> 0 <= bound ->
  pain_ok p ->
  pain_fading j bound (Z.max 0 (bound - 2)) p ->
  exists p',
    at_rest k p = Some p' /\ pain_ok p'
    /\ pain_fading (j + k) bound (Z.max 0 (bound - 2)) p'.
Proof.
  induction k as [|k IH]; intros j bound p Hjk Hb Hok Hf; simpl.
  - exists p. rewrite Nat.add_0_r. auto.
  - destruct (update_pain_level_idle_total p 0 None Hok) as [p1 E1].
    rewrite E1. simpl.
    assert (Hok1 : pain_ok p1)
      by exact (update_pain_level_ok _ _ _ _ _ Hok E1).
    assert (Hf1 : pain_fading (S j) bound (Z.max 0 (bound - 2)) p1)
      by (apply (pain_fading_step j bound p p1); auto; lia).
    destruct (IH (S j) bound p1 ltac:(lia) Hb Hok1 Hf1) as (p' & E & Hok' & Hf').
    exists p'. replace (j + S k)%nat with (S j + k)%nat by lia. auto.
Qed.

(** The last of a positive number of not-gripping updates. *)
Lemma at_rest_last n : forall p p',
  pain_ok p -> at_rest (S n) p = Some p' ->
  exists q, pain_ok q /\ update_pain_level q 0 None false = Some p'.
Proof.
  induction n as [|n IH]; intros p p' Hok E; simpl in E;
    destruct (update_pain_level p 0 None false) as [p1|] eqn:E1;
    try discriminate; simpl in E.
  - injection E as <-. exists p. auto.
  - apply (IH p1); [|exact E].
    exact (update_pain_level_ok _ _ _ _ _ Hok E1).
Qed.

Lemma at_rest_app a : forall b p,
  at_rest (a + b) p = p1 ← at_rest a p; at_rest b p1.
Proof.
  induction a as [|a IH]; intros b p; simpl; [reflexivity|].
  destruct (update_pain_level p 0 None false) as [p1|]; simpl;
    [apply IH | reflexivity].
Qed.

(** Twenty not-gripping updates lower a bound on the pain by 2. *)
Lemma at_rest_twenty bound p :
  0 <= bound -> pain_ok p -> pain_below bound p ->
  exists p',
    at_rest 20 p = Some p' /\ pain_ok p'
    /\ pain_below (Z.max 0 (bound - 2)) p'.
Proof.
  intros Hb Hok [Hlevel Hall].
  assert (Hf0 : pain_fading 0 bound (Z.max 0 (bound - 2)) p).
  { split; [exact Hlevel|]. exists (pain_history p), [].
    rewrite app_nil_r. destruct Hok as [_ _ Hlen].
    repeat split; auto. lia. }
  destruct (at_rest_fading 20 0 bound p ltac:(lia) Hb Hok Hf0)
    as (p' & E & Hok' & (_ & old & new & Hh & Hnew & Hlen & _ & Hfresh)).
  exists p'. split; [exact E|]. split; [exact Hok'|].
  simpl in Hnew, Hlen.
  assert (old = []) by (destruct old; [reflexivity | simpl in Hlen; lia]).
  subst old. simpl in Hh.
  destruct (at_rest_last 19 p p' Hok E) as (q & Hq & Eq).
  destruct (idle_update_decays _ _ Hq Eq) as (_ & Hmean & _).
  split.
  - rewrite Hmean. apply mean_upper_bound.
    + rewrite Hh. destruct new; [discriminate Hnew | discriminate].
    + rewrite Hh. exact Hfresh.
  - rewrite Hh. exact Hfresh.
Qed.

Lemma at_rest_rounds k : forall bound p,
  0 <= bound -> pain_ok p -> pain_below bound p ->
  exists p',
    at_rest (20 * k) p = Some p' /\ pain_ok p'
    /\ pain_below (Z.max 0 (bound - 2 * Z.of_nat k)) p'.
Proof.
  induction k as [|k IH]; intros bound p Hb Hok Hbelow.
  - exists p. split; [reflexivity|]. split; [exact Hok|].
    replace (Z.max 0 (bound - 2 * Z.of_nat 0)) with bound by lia.
    exact Hbelow.
  - destruct (at_rest_twenty bound p Hb Hok Hbelow) as (p1 & E1 & Hok1 & Hb1).
    destruct (IH (Z.max 0 (bound - 2)) p1 ltac:(lia) Hok1 Hb1)
      as (p' & E & Hok' & Hb').
    exists p'. replace (20 * S k)%nat with (20 + 20 * k)%nat by lia.
    rewrite at_rest_app, E1. split; [exact E|]. split; [exact Hok'|].
    replace (Z.max 0 (bound - 2 * Z.of_nat (S k)))
      with (Z.max 0 (Z.max 0 (bound - 2) - 2 * Z.of_nat k)) by lia.
    exact Hb'.
Qed.

(** A pain model at level 0 with only zero samples stays there. *)
Lemma at_rest_zero n : forall p,
  pain_ok p -> pain_below 0 p ->
  exists p', at_rest n p = Some p' /\ pain_ok p' /\ pain_below 0 p'.
Proof.
  induction n as [|n IH]; intros p Hok Hbelow; simpl.
  - exists p. auto.
  - destruct (update_pain_level_idle_total p 0 None Hok) as [p1 E1].
    rewrite E1. simpl.
    assert (Hok1 : pain_ok p1)
      by exact (update_pain_level_ok _ _ _ _ _ Hok E1).
    apply IH; [exact Hok1|].
    destruct Hbelow as [Hlevel Hall].
    destruct (idle_update_decays _ _ Hok E1) as (Hh & Hmean & _).
    assert (Hall1 : Forall (fun x => x <= 0) (pain_history p1)).
    { rewrite Hh. apply deque_append_Forall; [exact Hall | lia]. }
    split; [|exact Hall1].
    rewrite Hmean. apply mean_upper_bound; [|exact Hall1].
    rewrite Hh. apply deque_append_nonempty.
Qed.

(** X14. Pain fades at rest: from any well-formed pain model, a thousand
    or more not-gripping updates in a row all succeed and end with pain
    level 0, a pain history of zeros only and relief mode off. *)
Theorem pain_fades_at_rest p n :
  pain_ok p -> (1000 <= n)%nat ->
  exists p',
    at_rest n p = Some p'
    /\ pain_level p' = 0
    /\ Forall (fun x => x = 0) (pain_history p')
    /\ relief_mode p' = false.
Proof.
  intros Hok Hn.
  assert (Hstart : pain_below 100 p).
  { destruct Hok as [Hlevel Hall _]. split; [unfold in_range in Hlevel; lia|].
    eapply Forall_impl; [exact Hall|]. unfold in_range. simpl. lia. }
  destruct (at_rest_rounds 50 100 p ltac:(lia) Hok Hstart)
    as (p1 & E1 & Hok1 & Hb1).
  change (Z.max 0 (100 - 2 * Z.of_nat 50)) with 0 in Hb1.
  change (20 * 50)%nat with 1000%nat in E1.
  destruct (at_rest_zero (n - 1000) p1 Hok1 Hb1) as (p' & E & Hok' & [Hl Hall]).
  exists p'. replace n with (1000 + (n - 1000))%nat by lia.
  rewrite at_rest_app, E1. split; [exact E|].
  assert (Hzero : pain_level p' = 0)
    by (destruct Hok' as [Hr _ _]; unfold in_range in Hr; lia).
  split; [exact Hzero|]. split.
  - destruct Hok' as [_ Hr _].
    apply Forall_forall. intros x Hx.
    pose proof (proj1 (Forall_forall _ _) Hr x Hx) as H1.
    pose proof (proj1 (Forall_forall _ _) Hall x Hx) as H2.
    unfold in_range in H1. simpl in H2. lia.
  - assert (Elast : at_rest (S (n - 1)) p = Some p').
    { replace (S (n - 1)) with (1000 + (n - 1000))%nat by lia.
      rewrite at_rest_app, E1. exact E. }
    destruct (at_rest_last _ _ _ Hok Elast) as (q & Hq & Eq).
    rewrite (update_pain_level_relief _ _ _ _ _ Eq), Hzero.
    reflexivity.
Qed.

Lemma pain_fades_at_rest_witness :
  pain_level (pain_system glass_relief) = 72
  /\ exists p',
       at_rest 1200 (pain_system glass_relief) = Some p'
       /\ pain_level p' = 0
       /\ Forall (fun x => x = 0) (pain_history p')
       /\ relief_mode p' = false.
Proof.
  split; [vm_compute; reflexivity|].
  apply pain_fades_at_rest; [|lia].
  exact (ok_pain _ (reachable_ok _ _ (state_after_reachable _))).
Defined.
